(** * stock-analysis-tools: the SQLite ticker store

    A shallow embedding of the three scripts of the repository

    - [fetch_icolcap_to_sqlite.py]
    - [skills/ticker-db-store/scripts/add_ticker_to_db.py]
    - [skills/ticker-db-store/scripts/check_ticker_in_db.py]

    The store is the pair of tables made by [create_tables]; a table is the
    list of its rows in rowid order.  The SQL statements of the scripts are
    functions on those lists, the provider ([yfinance]) is a record of the
    two calls the scripts make, and [CURRENT_TIMESTAMP] is an argument.
    [upsert_ticker_info] and [upsert_price_history] have the same text in
    both fetch scripts and are embedded once. *)

From Stdlib Require Import List String Ascii Bool Arith ZArith Lia PrimFloat.
From Stdlib Require Import DecimalString Permutation OrderedTypeEx.
Import ListNotations.

Set Warnings "-inexact-float,-abstract-large-number".

Local Open Scope list_scope.
Local Open Scope string_scope.

(** ** Values

    What the [sqlite3] adapter binds and reads back: [None] is NULL, an [int]
    an INTEGER, a [float] a REAL and a [str] a TEXT.  The scripts never
    compute with a cell, they only carry it.  A cell holds the value that
    was bound; the storage class SQLite's column affinity may give it (an
    INTEGER bound to a REAL column is kept as the REAL of that number) is
    not told apart. *)

Inductive value : Type :=
| VNull
| VInt (z : Z)
| VReal (f : float)
| VText (s : string).

(** ** The two tables of [create_tables] *)

Module Info.
(** [ticker_info]: [ticker TEXT PRIMARY KEY] and twelve more columns. *)
Record row : Type := mk {
  ticker : string;
  short_name : value;
  long_name : value;
  quote_type : value;
  currency : value;
  exchange : value;
  market_cap : value;
  sector : value;
  industry : value;
  country : value;
  website : value;
  raw_info_json : string;
  updated_at : string
}.
End Info.

Module Price.
(** [ticker_prices]: [PRIMARY KEY (ticker, date)] and eight REAL columns. *)
Record row : Type := mk {
  ticker : string;
  date : string;
  open : value;
  high : value;
  low : value;
  close : value;
  adj_close : value;
  volume : value;
  dividends : value;
  stock_splits : value
}.

Definition key (r : row) : string * string := (ticker r, date r).
End Price.

(** The connection: the rows of both tables. *)
Record db : Type := mkdb {
  ticker_info : list Info.row;
  ticker_prices : list Price.row
}.

(** ** [INSERT ... ON CONFLICT(key) DO UPDATE SET ...]

    SQLite looks for the row whose conflict target equals the one of the
    row being inserted (the row called [excluded] in the statement).  When
    there is one, it is rewritten in place by the SET clause; when there is
    none, the new row is appended. *)

Section OnConflict.
Context {R K : Type}.
Variable key : R -> K.
Variable key_eqb : K -> K -> bool.
Variable do_update : R -> R -> R.

Fixpoint insert_on_conflict (excluded : R) (t : list R) : list R :=
  match t with
  | [] => [excluded]
  | old :: rest =>
      if key_eqb (key old) (key excluded)
      then do_update excluded old :: rest
      else old :: insert_on_conflict excluded rest
  end.

(** [executemany]: the statement once per parameter row, in order. *)
Definition executemany (rows : list R) (t : list R) : list R :=
  fold_left (fun acc r => insert_on_conflict r acc) rows t.

Definition has_key (k : K) (r : R) : bool := key_eqb (key r) k.

(** The rows a [WHERE key = k] selects. *)
Definition select_key (k : K) (t : list R) : list R := filter (has_key k) t.

(** The SET clause, run for the excluded row [e] against a row with its key,
    leaves [e]: it overwrites every column outside the conflict target. *)
Definition overwrites (e : R) : Prop :=
  forall o, key o = key e -> do_update e o = e.

End OnConflict.

(** ** What the provider returns

    [yf.Ticker(ticker).info] is a [dict]; [json.dumps] writes its items in
    insertion order, so the dict is kept as the list of its items.
    [yf.Ticker(ticker).history(...)] is a [DataFrame] whose index holds one
    timestamp per bar; a row is the timestamp with the labelled cells. *)

Definition dict : Type := list (string * value).

(** [d.get(k)] *)
Fixpoint dict_get (d : dict) (k : string) : value :=
  match d with
  | [] => VNull
  | (k', v) :: d' => if (k' =? k)%string then v else dict_get d' k
  end.

(** A [pandas.Timestamp], as the index of the history frame holds one per
    bar: wall-clock fields and the offset of its zone from UTC, in minutes. *)
Record Timestamp : Type := mkTimestamp {
  ts_year : nat;
  ts_month : nat;
  ts_day : nat;
  ts_hour : nat;
  ts_minute : nat;
  ts_second : nat;
  ts_utcoffset : Z
}.

(** A [datetime.date]. *)
Record pydate : Type := mkdate {
  d_year : nat;
  d_month : nat;
  d_day : nat
}.


(** [.dt.date]: the date part of the timestamp, "without time and timezone
    information". *)
Definition dt_date (ts : Timestamp) : pydate :=
  {| d_year := ts_year ts; d_month := ts_month ts; d_day := ts_day ts |}.

(** [str(n)] for a non-negative [int]. *)
Definition str_nat (n : nat) : string := NilZero.string_of_uint (Nat.to_uint n).

Fixpoint zeros (n : nat) : string :=
  match n with
  | O => ""
  | S n' => String "0" (zeros n')
  end.

(** ["%0wd" % n] *)
Definition fmt_0d (w n : nat) : string :=
  let s := str_nat n in zeros (w - String.length s) ++ s.

(** [str(d)] is [d.isoformat()], that is ["%04d-%02d-%02d" % (year, month, day)]. *)
Definition isoformat (d : pydate) : string :=
  fmt_0d 4 (d_year d) ++ "-" ++ fmt_0d 2 (d_month d) ++ "-" ++ fmt_0d 2 (d_day d).

(** [.dt.date.astype(str)] on one index entry. *)
Definition normalize_date (ts : Timestamp) : string := isoformat (dt_date ts).






(** A row of the history frame as [iterrows] yields it. *)
Record Series : Type := mkSeries {
  index : Timestamp;
  cells : dict
}.

(** [row.get(label)]: the cell, or [None] when the frame has no such column. *)
Definition Series_get (row : Series) (label : string) : value :=
  dict_get (cells row) label.

Record provider : Type := mkprovider {
  yf_info : string -> dict;
  yf_history : string -> string -> list Series
}.

(** ** The upserts (the same text in both fetch scripts) *)

Definition info_excluded (json_dumps : dict -> string) (now ticker : string)
    (info : dict) : Info.row :=
  {| Info.ticker := ticker;
     Info.short_name := dict_get info "shortName";
     Info.long_name := dict_get info "longName";
     Info.quote_type := dict_get info "quoteType";
     Info.currency := dict_get info "currency";
     Info.exchange := dict_get info "exchange";
     Info.market_cap := dict_get info "marketCap";
     Info.sector := dict_get info "sector";
     Info.industry := dict_get info "industry";
     Info.country := dict_get info "country";
     Info.website := dict_get info "website";
     Info.raw_info_json := json_dumps info;
     Info.updated_at := now |}.

(** [ON CONFLICT(ticker) DO UPDATE SET short_name = excluded.short_name, ...,
    updated_at = CURRENT_TIMESTAMP] *)
Definition info_do_update (now : string) (excluded old : Info.row) : Info.row :=
  {| Info.ticker := Info.ticker old;
     Info.short_name := Info.short_name excluded;
     Info.long_name := Info.long_name excluded;
     Info.quote_type := Info.quote_type excluded;
     Info.currency := Info.currency excluded;
     Info.exchange := Info.exchange excluded;
     Info.market_cap := Info.market_cap excluded;
     Info.sector := Info.sector excluded;
     Info.industry := Info.industry excluded;
     Info.country := Info.country excluded;
     Info.website := Info.website excluded;
     Info.raw_info_json := Info.raw_info_json excluded;
     Info.updated_at := now |}.

(** [upsert_ticker_info(conn, ticker, info)].  [now] is what
    [CURRENT_TIMESTAMP] reads while the statement runs, [json_dumps] is
    [json.dumps(_, ensure_ascii=True)]. *)
Definition upsert_ticker_info (json_dumps : dict -> string) (now : string)
    (conn : db) (ticker : string) (info : dict) : db :=
  {| ticker_info :=
       insert_on_conflict Info.ticker String.eqb (info_do_update now)
         (info_excluded json_dumps now ticker info) (ticker_info conn);
     ticker_prices := ticker_prices conn |}.

(** The tuple appended to [rows] for one bar. *)
Definition price_tuple (ticker : string) (row : Series) : Price.row :=
  {| Price.ticker := ticker;
     Price.date := normalize_date (index row);
     Price.open := Series_get row "Open";
     Price.high := Series_get row "High";
     Price.low := Series_get row "Low";
     Price.close := Series_get row "Close";
     Price.adj_close := Series_get row "Adj Close";
     Price.volume := Series_get row "Volume";
     Price.dividends := Series_get row "Dividends";
     Price.stock_splits := Series_get row "Stock Splits" |}.

(** [ON CONFLICT(ticker, date) DO UPDATE SET open = excluded.open, ...] *)
Definition price_do_update (excluded old : Price.row) : Price.row :=
  {| Price.ticker := Price.ticker old;
     Price.date := Price.date old;
     Price.open := Price.open excluded;
     Price.high := Price.high excluded;
     Price.low := Price.low excluded;
     Price.close := Price.close excluded;
     Price.adj_close := Price.adj_close excluded;
     Price.volume := Price.volume excluded;
     Price.dividends := Price.dividends excluded;
     Price.stock_splits := Price.stock_splits excluded |}.

Definition price_key_eqb (a b : string * string) : bool :=
  (fst a =? fst b)%string && (snd a =? snd b)%string.

Definition executemany_prices (rows t : list Price.row) : list Price.row :=
  executemany Price.key price_key_eqb price_do_update rows t.

(** [upsert_price_history(conn, ticker, period)]: the connection after the
    call and the returned count. *)
Definition upsert_price_history (yf : provider) (conn : db)
    (ticker period : string) : db * nat :=
  let history := yf_history yf ticker period in
  match history with
  | [] => (conn, 0)
  | _ :: _ =>
      let rows := map (price_tuple ticker) history in
      ({| ticker_info := ticker_info conn;
          ticker_prices := executemany_prices rows (ticker_prices conn) |},
       List.length rows)
  end.

(** [create_tables(conn)]: both statements are [CREATE TABLE IF NOT EXISTS].
    A table that is there keeps its rows, and one that is made has none, as
    a missing one had none to show: on the rows of the store the call
    changes nothing. *)
Definition create_tables (conn : db) : db := conn.

(** ** Exceptions and the connection's [with] block *)

Inductive exn : Type :=
| RuntimeError (msg : string)
| FileNotFoundError (msg : string).

(** [with sqlite3.connect(db_path) as conn: body]: the connection commits
    when the body ends and rolls back when it raises. *)
Definition with_connection {A : Type} (disk : db)
    (body : db -> exn + (A * db)) : (exn + A) * db :=
  match body disk with
  | inl e => (inl e, disk)
  | inr (a, conn) => (inr a, conn)
  end.

Record args : Type := mkargs {
  arg_ticker : string;
  arg_db : string;
  arg_period : string
}.

(** ** [fetch_icolcap_to_sqlite.py] *)

Module FetchIcolcap.

Definition fetch_info (yf : provider) (ticker : string) : exn + dict :=
  match yf_info yf ticker with
  | [] => inl (RuntimeError ("No metadata returned for ticker: " ++ ticker))
  | info => inr info
  end.

(** [main]: what is raised or printed, and the store left behind. *)
Definition main (json_dumps : dict -> string) (yf : provider) (now : string)
    (a : args) (disk : db) : (exn + string) * db :=
  let (r, disk') :=
    with_connection disk (fun conn =>
      let conn := create_tables conn in
      match fetch_info yf (arg_ticker a) with
      | inl e => inl e
      | inr info =>
          let conn := upsert_ticker_info json_dumps now conn (arg_ticker a) info in
          let (conn, count) := upsert_price_history yf conn (arg_ticker a) (arg_period a) in
          inr (count, conn)
      end) in
  match r with
  | inl e => (inl e, disk')
  | inr count =>
      (inr ("Saved ticker info and " ++ str_nat count ++ " price rows for "
            ++ arg_ticker a ++ " into " ++ arg_db a), disk')
  end.

End FetchIcolcap.

(** ** [add_ticker_to_db.py] *)

Module AddTicker.

Definition fetch_ticker_info (yf : provider) (ticker : string) : exn + dict :=
  match yf_info yf ticker with
  | [] => inl (RuntimeError ("No ticker metadata returned for " ++ ticker))
  | info => inr info
  end.

Definition main (json_dumps : dict -> string) (yf : provider) (now : string)
    (a : args) (disk : db) : (exn + string) * db :=
  let (r, disk') :=
    with_connection disk (fun conn =>
      let conn := create_tables conn in
      match fetch_ticker_info yf (arg_ticker a) with
      | inl e => inl e
      | inr info =>
          let conn := upsert_ticker_info json_dumps now conn (arg_ticker a) info in
          let (conn, inserted) := upsert_price_history yf conn (arg_ticker a) (arg_period a) in
          inr (inserted, conn)
      end) in
  match r with
  | inl e => (inl e, disk')
  | inr inserted =>
      (inr ("Upserted " ++ arg_ticker a ++ ": " ++ str_nat inserted
            ++ " price rows into " ++ arg_db a), disk')
  end.

End AddTicker.

(** ** [check_ticker_in_db.py] *)

Module CheckTicker.

(** [MIN(date)] and [MAX(date)] compare TEXT bytewise. *)
Definition str_min (a b : string) : string := if String.leb a b then a else b.
Definition str_max (a b : string) : string := if String.leb a b then b else a.

(** [ORDER BY date DESC] *)
Fixpoint insert_desc (r : Price.row) (l : list Price.row) : list Price.row :=
  match l with
  | [] => [r]
  | x :: l' =>
      if String.leb (Price.date r) (Price.date x)
      then x :: insert_desc r l'
      else r :: l
  end.

Definition order_by_date_desc (l : list Price.row) : list Price.row :=
  fold_right insert_desc [] l.

Definition where_ticker (ticker : string) (t : list Price.row) : list Price.row :=
  filter (fun r => (Price.ticker r =? ticker)%string) t.

(** [(SELECT close FROM ticker_prices p2 WHERE p2.ticker = p1.ticker
      ORDER BY date DESC LIMIT 1)]; a scalar subquery without rows is NULL. *)
Definition latest_close_of (t : list Price.row) (ticker : string) : value :=
  match order_by_date_desc (where_ticker ticker t) with
  | [] => VNull
  | r :: _ => Price.close r
  end.

Record summary : Type := mksummary {
  s_ticker : string;
  row_count : nat;
  first_date : string;
  last_date : string;
  latest_close : value
}.

(** The SELECT of [main] followed by [fetchone()]: the rows of the ticker
    form one group; without rows there is no group and no result row. *)
Definition summary_query (conn : db) (ticker : string) : option summary :=
  match where_ticker ticker (ticker_prices conn) with
  | [] => None
  | r :: rest =>
      Some {| s_ticker := Price.ticker r;
              row_count := List.length (r :: rest);
              first_date := fold_left str_min (map Price.date rest) (Price.date r);
              last_date := fold_left str_max (map Price.date rest) (Price.date r);
              latest_close := latest_close_of (ticker_prices conn) (Price.ticker r) |}
  end.

Inductive printed : Type :=
| NoPriceRows (line : string)
| Report (row : summary).

(** [main]: [store] is [None] when no file is at [--db]. *)
Definition main (store : option db) (ticker db_path : string) : exn + printed :=
  match store with
  | None => inl (FileNotFoundError ("Database not found: " ++ db_path))
  | Some conn =>
      match summary_query conn ticker with
      | None => inr (NoPriceRows ("No price rows found for " ++ ticker))
      | Some row =>
          if (row_count row =? 0)%nat
          then inr (NoPriceRows ("No price rows found for " ++ ticker))
          else inr (Report row)
      end
  end.

End CheckTicker.

(** The primary keys of the schema; SQLite keeps them in every state of a
    store made by [create_tables]. *)
Definition pk_info (t : list Info.row) : Prop := NoDup (map Info.ticker t).
Definition pk_prices (t : list Price.row) : Prop := NoDup (map Price.key t).


(** ** Sample data *)


Definition sample_bar (day hour : nat) (close : float) : Series :=
  {| index := {| ts_year := 2024; ts_month := 1; ts_day := day;
                 ts_hour := hour; ts_minute := 0; ts_second := 0;
                 ts_utcoffset := (-300)%Z |};
     cells := [("Open", VReal 10); ("Close", VReal close); ("Volume", VInt 1200)] |}.

(** Three bars, the last two on one calendar date. *)
Definition sample_history : list Series :=
  [sample_bar 2 0 10.5; sample_bar 3 0 11.0; sample_bar 3 16 11.25].

Definition sample_info : dict :=
  [("shortName", VText "Xyz Corp"); ("currency", VText "USD"); ("marketCap", VInt 1000000)].

(** A provider that knows the ticker XYZ only. *)
Definition sample_provider : provider :=
  {| yf_info := fun ticker => if ticker =? "XYZ" then sample_info else [];
     yf_history := fun ticker _ => if ticker =? "XYZ" then sample_history else [] |}.

(** A stand-in for [json.dumps] that writes the keys only. *)
Definition sample_dumps (d : dict) : string :=
  "{" ++ String.concat ", " (map fst d) ++ "}".

(** A bar of 2024-01-03 with a value of its own in each of the eight
    columns the scripts read, and one column they do not read. *)
Definition quoted_bar (hour : nat)
    (o h l c adj vol div split : float) : Series :=
  {| index := {| ts_year := 2024; ts_month := 1; ts_day := 3;
                 ts_hour := hour; ts_minute := 0; ts_second := 0;
                 ts_utcoffset := (-300)%Z |};
     cells := [("Open", VReal o); ("High", VReal h); ("Low", VReal l);
               ("Close", VReal c); ("Adj Close", VReal adj);
               ("Volume", VReal vol); ("Dividends", VReal div);
               ("Stock Splits", VReal split); ("Capital Gains", VReal 0)] |}.

(** A provider whose history has a bar of 2024-01-02 and then two bars of
    2024-01-03 that differ in every column. *)
Definition quoted_provider : provider :=
  {| yf_info := fun _ => sample_info;
     yf_history := fun _ _ =>
       [sample_bar 2 0 10.5;
        quoted_bar 0 11 11.5 10.75 11.125 11.0625 1200 0 0;
        quoted_bar 16 12 12.5 11.75 12.25 12.125 3400 0.5 2] |}.

Definition xyz_row (date : string) (close : float) : Price.row :=
  {| Price.ticker := "XYZ"; Price.date := date;
     Price.open := VNull; Price.high := VNull; Price.low := VNull;
     Price.close := VReal close; Price.adj_close := VNull;
     Price.volume := VNull; Price.dividends := VNull; Price.stock_splits := VNull |}.

Definition abc_row (date : string) (close : float) : Price.row :=
  {| Price.ticker := "ABC"; Price.date := date;
     Price.open := VNull; Price.high := VNull; Price.low := VNull;
     Price.close := VReal close; Price.adj_close := VNull;
     Price.volume := VNull; Price.dividends := VNull; Price.stock_splits := VNull |}.

Definition stale_info : Info.row :=
  {| Info.ticker := "XYZ"; Info.short_name := VText "Old name";
     Info.long_name := VText "Old long name"; Info.quote_type := VText "ETF";
     Info.currency := VText "COP"; Info.exchange := VNull;
     Info.market_cap := VNull; Info.sector := VText "Old sector";
     Info.industry := VNull; Info.country := VNull; Info.website := VNull;
     Info.raw_info_json := "{}"; Info.updated_at := "2023-12-31 08:00:00" |}.

(** The store right after [create_tables] on a new file. *)
Definition empty_store : db := {| ticker_info := []; ticker_prices := [] |}.

(** The store of the reporter's example, with rows of another ticker in
    between and the XYZ rows out of date order. *)
Definition xyz_store : db :=
  {| ticker_info := [stale_info];
     ticker_prices :=
       [xyz_row "2024-01-03" 11.0; abc_row "2024-01-05" 3.0;
        xyz_row "2024-01-04" 9.8; xyz_row "2024-01-02" 10.5;
        abc_row "2024-01-02" 2.5] |}.

(** * Facts *)

(** ** The conflict clause *)

Section OnConflictFacts.
Context {R K : Type}.
Variable key : R -> K.
Variable key_eqb : K -> K -> bool.
Variable do_update : R -> R -> R.
Hypothesis key_eqb_eq : forall a b, key_eqb a b = true <-> a = b.

Local Abbreviation ins := (insert_on_conflict key key_eqb do_update).
Local Abbreviation many := (executemany key key_eqb do_update).
Local Abbreviation sel := (select_key key key_eqb).
Local Abbreviation ovw := (overwrites key do_update).

Lemma key_eqb_refl k : key_eqb k k = true.
Proof. now apply key_eqb_eq. Qed.

Lemma key_eqb_neq a b : key_eqb a b = false <-> a <> b.
Proof.
  destruct (key_eqb a b) eqn:E.
  - apply key_eqb_eq in E. split; [discriminate | contradiction].
  - split; [| reflexivity]. intros _ H. apply key_eqb_eq in H. congruence.
Qed.

Lemma keys_insert_present e t :
  ovw e -> In (key e) (map key t) -> map key (ins e t) = map key t.
Proof.
  intros Hov. induction t as [| o t IH]; simpl; [contradiction |].
  intros Hin. destruct (key_eqb (key o) (key e)) eqn:E.
  - apply key_eqb_eq in E. simpl. rewrite (Hov o E). now rewrite E.
  - simpl. f_equal. apply IH. destruct Hin as [H | H]; [| exact H].
    apply key_eqb_neq in E. contradiction.
Qed.

Lemma keys_insert_absent e t :
  ~ In (key e) (map key t) -> map key (ins e t) = (map key t ++ [key e])%list.
Proof.
  induction t as [| o t IH]; simpl; [reflexivity |].
  intros Hnin. destruct (key_eqb (key o) (key e)) eqn:E.
  - apply key_eqb_eq in E. exfalso. apply Hnin. now left.
  - simpl. f_equal. apply IH. intro H. apply Hnin. now right.
Qed.

Lemma key_in_dec k t : {In k (map key t)} + {~ In k (map key t)}.
Proof.
  apply in_dec. intros a b. destruct (key_eqb a b) eqn:E.
  - left. now apply key_eqb_eq.
  - right. now apply key_eqb_neq.
Qed.

Lemma keys_insert_incl e t k :
  ovw e -> In k (map key t) -> In k (map key (ins e t)).
Proof.
  intros Hov H. destruct (key_in_dec (key e) t) as [Hin | Hnin].
  - now rewrite keys_insert_present.
  - rewrite keys_insert_absent by assumption. apply in_or_app. now left.
Qed.

Lemma keys_insert_self e t : ovw e -> In (key e) (map key (ins e t)).
Proof.
  intros Hov. destruct (key_in_dec (key e) t) as [Hin | Hnin].
  - now rewrite keys_insert_present.
  - rewrite keys_insert_absent by assumption. apply in_or_app. right. now left.
Qed.

Lemma insert_NoDup e t :
  ovw e -> NoDup (map key t) -> NoDup (map key (ins e t)).
Proof.
  intros Hov Hnd. destruct (key_in_dec (key e) t) as [Hin | Hnin].
  - now rewrite keys_insert_present.
  - rewrite keys_insert_absent by assumption.
    apply NoDup_app; [exact Hnd | repeat constructor; intros [] | ].
    intros a Ha [Hb | []]. subst. contradiction.
Qed.

Lemma executemany_NoDup rows t :
  Forall ovw rows -> NoDup (map key t) -> NoDup (map key (many rows t)).
Proof.
  unfold executemany. intros Hov. revert t.
  induction Hov as [| r rows Hr Hov IH]; simpl; intros t Hnd; [exact Hnd |].
  apply IH. now apply insert_NoDup.
Qed.

Lemma executemany_keys_incl rows t k :
  Forall ovw rows -> In k (map key t) -> In k (map key (many rows t)).
Proof.
  unfold executemany. intros Hov. revert t.
  induction Hov as [| r rows Hr Hov IH]; simpl; intros t Hin; [exact Hin |].
  apply IH. now apply keys_insert_incl.
Qed.

Lemma executemany_keys_rows rows t k :
  Forall ovw rows -> In k (map key rows) -> In k (map key (many rows t)).
Proof.
  unfold executemany. intros Hov. revert t.
  induction Hov as [| r rows Hr Hov IH]; simpl; intros t Hin; [contradiction |].
  destruct Hin as [<- | Hin].
  - apply (executemany_keys_incl rows); [exact Hov |]. now apply keys_insert_self.
  - now apply IH.
Qed.

(** A batch whose keys are all stored already adds no row. *)
Lemma executemany_keys_present rows t :
  Forall ovw rows ->
  incl (map key rows) (map key t) ->
  map key (many rows t) = map key t.
Proof.
  unfold executemany. intros Hov. revert t.
  induction Hov as [| r rows Hr Hov IH]; simpl; intros t Hincl; [reflexivity |].
  assert (Hin : In (key r) (map key t)) by (apply Hincl; now left).
  rewrite IH.
  - now apply keys_insert_present.
  - rewrite keys_insert_present by assumption.
    intros k Hk. apply Hincl. now right.
Qed.

Lemma executemany_twice_keys rows t :
  Forall ovw rows ->
  map key (many rows (many rows t)) = map key (many rows t).
Proof.
  intros Hov. apply executemany_keys_present; [exact Hov |].
  intros k Hk. now apply executemany_keys_rows.
Qed.

(** *** What a key selects after the statement *)

Lemma select_key_absent k t : ~ In k (map key t) -> sel k t = [].
Proof.
  unfold select_key. induction t as [| o t IH]; simpl; [reflexivity |].
  intros Hnin. unfold has_key at 1.
  destruct (key_eqb (key o) k) eqn:E.
  - apply key_eqb_eq in E. exfalso. apply Hnin. now left.
  - apply IH. intro H. apply Hnin. now right.
Qed.

Lemma select_insert_same e t :
  ovw e -> NoDup (map key t) -> sel (key e) (ins e t) = [e].
Proof.
  unfold select_key. intros Hov.
  induction t as [| o t IH]; simpl; intros Hnd.
  - unfold has_key. now rewrite key_eqb_refl.
  - inversion Hnd as [| ? ? Hnin Hnd']; subst.
    destruct (key_eqb (key o) (key e)) eqn:E; simpl; unfold has_key at 1.
    + apply key_eqb_eq in E. rewrite (Hov o E).
      rewrite key_eqb_refl. f_equal.
      apply select_key_absent. now rewrite <- E.
    + rewrite E. now apply IH.
Qed.

Lemma select_insert_other e t k :
  ovw e -> k <> key e -> sel k (ins e t) = sel k t.
Proof.
  unfold select_key. intros Hov Hne.
  induction t as [| o t IH]; simpl.
  - unfold has_key. destruct (key_eqb (key e) k) eqn:E; [| reflexivity].
    apply key_eqb_eq in E. congruence.
  - destruct (key_eqb (key o) (key e)) eqn:E; simpl.
    + apply key_eqb_eq in E. rewrite (Hov o E).
      unfold has_key. rewrite <- E.
      destruct (key_eqb (key o) k) eqn:E'; [| reflexivity].
      apply key_eqb_eq in E'. congruence.
    + now rewrite IH.
Qed.

(** The last row of a batch with a given key is the one left stored. *)
Lemma select_executemany_last before e after t :
  Forall ovw (before ++ e :: after)%list ->
  NoDup (map key t) ->
  ~ In (key e) (map key after) ->
  sel (key e) (many (before ++ e :: after)%list t) = [e].
Proof.
  intros Hov Hnd Hlast.
  apply Forall_app in Hov. destruct Hov as [Hb Hea].
  inversion Hea as [| ? ? He Ha]; subst.
  unfold executemany. rewrite fold_left_app. simpl.
  fold (many before t).
  assert (Hnd' : NoDup (map key (many before t)))
    by now apply executemany_NoDup.
  pose proof (select_insert_same e _ He Hnd') as Hsel.
  revert Hsel. generalize (ins e (many before t)).
  clear Hea. induction Ha as [| r after Hr Ha IH]; simpl; intros u Hsel; [exact Hsel |].
  apply IH.
  - intro H. apply Hlast. now right.
  - rewrite select_insert_other; [exact Hsel | exact Hr |].
    intro H. apply Hlast. left. now symmetry.
Qed.

(** *** Rows the statement leaves alone *)

Lemma filter_insert_frame (p : R -> bool) e t :
  ovw e -> p e = false ->
  (forall o, key o = key e -> p o = false) ->
  filter p (ins e t) = filter p t.
Proof.
  intros Hov He Hk. induction t as [| o t IH]; simpl.
  - now rewrite He.
  - destruct (key_eqb (key o) (key e)) eqn:E; simpl.
    + apply key_eqb_eq in E. rewrite (Hov o E).
      now rewrite He, (Hk o E).
    + now rewrite IH.
Qed.

Lemma filter_executemany_frame (p : R -> bool) rows t :
  Forall ovw rows ->
  (forall e, In e rows -> p e = false) ->
  (forall e o, In e rows -> key o = key e -> p o = false) ->
  filter p (many rows t) = filter p t.
Proof.
  unfold executemany. intros Hov. revert t.
  induction Hov as [| r rows Hr Hov IH]; simpl; intros t He Hk; [reflexivity |].
  rewrite IH.
  - apply filter_insert_frame; [exact Hr | apply He; now left |].
    intros o. apply Hk. now left.
  - intros e Hin. apply He. now right.
  - intros e o Hin. apply Hk. now right.
Qed.

(** Under the primary key a key names one row. *)
Lemma key_unique t a b :
  NoDup (map key t) -> In a t -> In b t -> key a = key b -> a = b.
Proof.
  induction t as [| x t IH]; simpl; [contradiction |].
  intros Hnd Ha Hb Hk. inversion Hnd as [| ? ? Hnin Hnd']; subst.
  destruct Ha as [-> | Ha], Hb as [-> | Hb]; auto.
  - exfalso. apply Hnin. rewrite Hk. now apply in_map.
  - exfalso. apply Hnin. rewrite <- Hk. now apply in_map.
Qed.

End OnConflictFacts.

(** ** The two statements of the scripts *)

Lemma price_key_eqb_eq a b : price_key_eqb a b = true <-> a = b.
Proof.
  destruct a as [t1 d1], b as [t2 d2]. unfold price_key_eqb. simpl.
  rewrite andb_true_iff, !String.eqb_eq. split.
  - intros [-> ->]. reflexivity.
  - intros H. inversion H. split; reflexivity.
Qed.

Lemma price_overwrites e : overwrites Price.key price_do_update e.
Proof.
  intros o Hk. destruct e, o. unfold Price.key in Hk. simpl in Hk.
  inversion Hk. reflexivity.
Qed.

Lemma price_overwrites_all rows : Forall (overwrites Price.key price_do_update) rows.
Proof. apply Forall_forall. intros e _. apply price_overwrites. Qed.

Lemma info_overwrites json_dumps now ticker info :
  overwrites Info.ticker (info_do_update now) (info_excluded json_dumps now ticker info).
Proof. intros o Hk. destruct o. simpl in Hk. subst. reflexivity. Qed.

Lemma string_eqb_iff (a b : string) : (a =? b) = true <-> a = b.
Proof. apply String.eqb_eq. Qed.

Lemma keys_price_tuple ticker history :
  map Price.key (map (price_tuple ticker) history)
  = map (fun b => (ticker, normalize_date (index b))) history.
Proof. rewrite map_map. reflexivity. Qed.

Lemma upsert_price_history_unfold yf conn ticker period :
  upsert_price_history yf conn ticker period
  = ({| ticker_info := ticker_info conn;
        ticker_prices :=
          executemany_prices (map (price_tuple ticker) (yf_history yf ticker period))
            (ticker_prices conn) |},
     List.length (yf_history yf ticker period)).
Proof.
  unfold upsert_price_history.
  destruct (yf_history yf ticker period) as [| b h].
  - destruct conn. reflexivity.
  - now rewrite length_map.
Qed.

(** Both upserts keep the primary keys, so every store the scripts reach
    from a new file has them. *)
Lemma upserts_keep_primary_keys json_dumps yf now conn ticker period info :
  pk_info (ticker_info conn) /\ pk_prices (ticker_prices conn) ->
  (pk_info (ticker_info (upsert_ticker_info json_dumps now conn ticker info))
   /\ pk_prices (ticker_prices (upsert_ticker_info json_dumps now conn ticker info)))
  /\ (pk_info (ticker_info (fst (upsert_price_history yf conn ticker period)))
      /\ pk_prices (ticker_prices (fst (upsert_price_history yf conn ticker period)))).
Proof.
  intros [Hi Hp]. rewrite upsert_price_history_unfold. simpl.
  repeat split; try assumption.
  - apply insert_NoDup; [exact string_eqb_iff | apply info_overwrites | exact Hi].
  - apply executemany_NoDup;
      [exact price_key_eqb_eq | apply price_overwrites_all | exact Hp].
Qed.

Lemma empty_store_primary_keys :
  pk_info (ticker_info empty_store) /\ pk_prices (ticker_prices empty_store).
Proof. split; constructor. Qed.

(** ** The scripts on the sample data *)

Example sample_dates :
  map (fun b => normalize_date (index b)) sample_history
  = ["2024-01-02"; "2024-01-03"; "2024-01-03"].
Proof. reflexivity. Qed.

Example sample_first_run :
  map (fun r => (Price.date r, Price.close r))
    (ticker_prices (fst (upsert_price_history sample_provider empty_store "XYZ" "max")))
  = [("2024-01-02", VReal 10.5); ("2024-01-03", VReal 11.25)].
Proof. reflexivity. Qed.

Example sample_main_prints :
  fst (FetchIcolcap.main sample_dumps sample_provider "2024-01-05 10:00:00"
         {| arg_ticker := "XYZ"; arg_db := "stock_data.db"; arg_period := "max" |}
         empty_store)
  = inr "Saved ticker info and 3 price rows for XYZ into stock_data.db".
Proof. reflexivity. Qed.

Example sample_add_ticker_prints :
  fst (AddTicker.main sample_dumps sample_provider "2024-01-05 10:00:00"
         {| arg_ticker := "XYZ"; arg_db := "stock_data.db"; arg_period := "max" |}
         xyz_store)
  = inr "Upserted XYZ: 3 price rows into stock_data.db".
Proof. reflexivity. Qed.

Example sample_report_missing_file :
  CheckTicker.main None "XYZ" "stock_data.db"
  = inl (FileNotFoundError "Database not found: stock_data.db").
Proof. reflexivity. Qed.

(** * The price merge *)

(** C1. Under the primary key of [ticker_prices], running
    [upsert_price_history] twice for one ticker against the same provider
    data leaves no two rows with one (ticker, date) key, and the second run
    leaves the keys, hence the row count, of the first. *)
Theorem price_merge_twice_no_duplicates
    (yf : provider) (conn : db) (ticker period : string) :
  pk_prices (ticker_prices conn) ->
  let conn1 := fst (upsert_price_history yf conn ticker period) in
  let conn2 := fst (upsert_price_history yf conn1 ticker period) in
  NoDup (map Price.key (ticker_prices conn1))
  /\ NoDup (map Price.key (ticker_prices conn2))
  /\ map Price.key (ticker_prices conn2) = map Price.key (ticker_prices conn1)
  /\ List.length (ticker_prices conn2) = List.length (ticker_prices conn1).
Proof.
  intros Hpk conn1 conn2. subst conn1 conn2.
  rewrite !upsert_price_history_unfold. simpl.
  set (rows := map (price_tuple ticker) (yf_history yf ticker period)).
  unfold executemany_prices.
  assert (Hkeys :
    map Price.key
      (executemany Price.key price_key_eqb price_do_update rows
         (executemany Price.key price_key_eqb price_do_update rows (ticker_prices conn)))
    = map Price.key
        (executemany Price.key price_key_eqb price_do_update rows (ticker_prices conn))).
  { apply executemany_twice_keys;
      [exact price_key_eqb_eq | apply price_overwrites_all]. }
  assert (Hnd1 :
    NoDup (map Price.key
      (executemany Price.key price_key_eqb price_do_update rows (ticker_prices conn)))).
  { apply executemany_NoDup;
      [exact price_key_eqb_eq | apply price_overwrites_all | exact Hpk]. }
  repeat split.
  - exact Hnd1.
  - rewrite Hkeys. exact Hnd1.
  - exact Hkeys.
  - apply (f_equal (@List.length _)) in Hkeys. now rewrite !length_map in Hkeys.
Qed.

Lemma price_merge_twice_no_duplicates_witness :
  pk_prices (ticker_prices xyz_store)
  /\ List.length
       (ticker_prices
          (fst (upsert_price_history sample_provider
                  (fst (upsert_price_history sample_provider xyz_store "XYZ" "max"))
                  "XYZ" "max")))
     = List.length
         (ticker_prices (fst (upsert_price_history sample_provider xyz_store "XYZ" "max"))).
Proof.
  assert (H : pk_prices (ticker_prices xyz_store)).
  { unfold pk_prices. simpl.
    repeat (constructor; [simpl; intuition discriminate |]). constructor. }
  split; [exact H |].
  exact (proj2 (proj2 (proj2
    (price_merge_twice_no_duplicates sample_provider xyz_store "XYZ" "max" H)))).
Defined.

(** C6. When the provider's history has no rows, [upsert_price_history]
    returns 0 and hands the connection back as it was: no statement runs. *)
Theorem empty_history_returns_zero
    (yf : provider) (conn : db) (ticker period : string) :
  yf_history yf ticker period = [] ->
  upsert_price_history yf conn ticker period = (conn, 0).
Proof. intros H. unfold upsert_price_history. now rewrite H. Qed.

Lemma empty_history_returns_zero_witness :
  upsert_price_history sample_provider xyz_store "NOPE" "max" = (xyz_store, 0).
Proof. apply empty_history_returns_zero. reflexivity. Defined.

(** C7. When the batch holds a bar that is the last one of its calendar
    date, the row stored under (ticker, date) after the merge has, column
    by column, the cells of that bar: open is its "Open", high its "High",
    low its "Low", close its "Close", adj_close its "Adj Close", volume its
    "Volume", dividends its "Dividends" and stock_splits its "Stock Splits"
    (NULL where the bar has no such cell), whatever earlier bars of the
    batch or the table held under the key.  Every bar of the batch is
    submitted: the count is the length of the batch, bars of one date
    included. *)
Theorem last_bar_of_a_date_wins
    (yf : provider) (conn : db) (ticker period : string)
    (before after : list Series) (b : Series) :
  pk_prices (ticker_prices conn) ->
  yf_history yf ticker period = (before ++ b :: after)%list ->
  (forall b', In b' after -> normalize_date (index b') <> normalize_date (index b)) ->
  select_key Price.key price_key_eqb (ticker, normalize_date (index b))
    (ticker_prices (fst (upsert_price_history yf conn ticker period)))
  = [ {| Price.ticker := ticker;
         Price.date := normalize_date (index b);
         Price.open := dict_get (cells b) "Open";
         Price.high := dict_get (cells b) "High";
         Price.low := dict_get (cells b) "Low";
         Price.close := dict_get (cells b) "Close";
         Price.adj_close := dict_get (cells b) "Adj Close";
         Price.volume := dict_get (cells b) "Volume";
         Price.dividends := dict_get (cells b) "Dividends";
         Price.stock_splits := dict_get (cells b) "Stock Splits" |} ]
  /\ snd (upsert_price_history yf conn ticker period)
     = List.length (before ++ b :: after)%list.
Proof.
  intros Hpk Hh Hlast. rewrite upsert_price_history_unfold, Hh. simpl.
  split; [| reflexivity].
  unfold executemany_prices. rewrite map_app. simpl.
  change {| Price.ticker := ticker;
            Price.date := normalize_date (index b);
            Price.open := dict_get (cells b) "Open";
            Price.high := dict_get (cells b) "High";
            Price.low := dict_get (cells b) "Low";
            Price.close := dict_get (cells b) "Close";
            Price.adj_close := dict_get (cells b) "Adj Close";
            Price.volume := dict_get (cells b) "Volume";
            Price.dividends := dict_get (cells b) "Dividends";
            Price.stock_splits := dict_get (cells b) "Stock Splits" |}
    with (price_tuple ticker b).
  apply (select_executemany_last Price.key price_key_eqb price_do_update
           price_key_eqb_eq _ (price_tuple ticker b)).
  - apply price_overwrites_all.
  - exact Hpk.
  - rewrite keys_price_tuple. intros Hin. apply in_map_iff in Hin.
    destruct Hin as [b' [Hk Hb']]. inversion Hk as [Hd].
    exact (Hlast b' Hb' Hd).
Qed.

Lemma last_bar_of_a_date_wins_witness :
  select_key Price.key price_key_eqb ("XYZ", "2024-01-03")
    (ticker_prices (fst (upsert_price_history quoted_provider xyz_store "XYZ" "max")))
  = [ {| Price.ticker := "XYZ";
         Price.date := "2024-01-03";
         Price.open := VReal 12;
         Price.high := VReal 12.5;
         Price.low := VReal 11.75;
         Price.close := VReal 12.25;
         Price.adj_close := VReal 12.125;
         Price.volume := VReal 3400;
         Price.dividends := VReal 0.5;
         Price.stock_splits := VReal 2 |} ]
  /\ snd (upsert_price_history quoted_provider xyz_store "XYZ" "max") = 3.
Proof.
  apply (last_bar_of_a_date_wins quoted_provider xyz_store "XYZ" "max"
           [sample_bar 2 0 10.5; quoted_bar 0 11 11.5 10.75 11.125 11.0625 1200 0 0]
           [] (quoted_bar 16 12 12.5 11.75 12.25 12.125 3400 0.5 2)).
  - unfold pk_prices. simpl.
    repeat (constructor; [simpl; intuition discriminate |]). constructor.
  - reflexivity.
  - intros b' [].
Defined.

(** C8. [upsert_price_history] returns the number of bars of the fetched
    history, all of which are submitted; that number need not be the
    number of rows added to the table. *)
Theorem returned_count_is_rows_submitted :
  (forall (yf : provider) (conn : db) (ticker period : string),
      snd (upsert_price_history yf conn ticker period)
      = List.length (map (price_tuple ticker) (yf_history yf ticker period)))
  /\ (exists (yf : provider) (conn : db) (ticker period : string),
        yf_history yf ticker period <> []
        /\ snd (upsert_price_history yf conn ticker period) = 3
        /\ List.length (ticker_prices (fst (upsert_price_history yf conn ticker period)))
           = List.length (ticker_prices conn) + 2).
Proof.
  split.
  - intros. rewrite upsert_price_history_unfold. simpl. now rewrite length_map.
  - exists sample_provider, empty_store, "XYZ", "max".
    split; [discriminate |]. split; reflexivity.
Qed.

(** C10. [upsert_price_history] leaves [ticker_info] as it was and
    [upsert_ticker_info] leaves [ticker_prices] as it was; the rows of every
    other ticker are, in both tables, the same rows in the same order after
    either call. *)
Theorem upserts_touch_one_table_and_one_ticker
    (json_dumps : dict -> string) (yf : provider) (now : string)
    (conn : db) (ticker period : string) (info : dict) :
  ticker_info (fst (upsert_price_history yf conn ticker period)) = ticker_info conn
  /\ ticker_prices (upsert_ticker_info json_dumps now conn ticker info)
     = ticker_prices conn
  /\ filter (fun r => negb (Price.ticker r =? ticker))
       (ticker_prices (fst (upsert_price_history yf conn ticker period)))
     = filter (fun r => negb (Price.ticker r =? ticker)) (ticker_prices conn)
  /\ filter (fun r => negb (Info.ticker r =? ticker))
       (ticker_info (upsert_ticker_info json_dumps now conn ticker info))
     = filter (fun r => negb (Info.ticker r =? ticker)) (ticker_info conn).
Proof.
  rewrite upsert_price_history_unfold. simpl.
  repeat split.
  - unfold executemany_prices.
    apply filter_executemany_frame.
    + exact price_key_eqb_eq.
    + apply price_overwrites_all.
    + intros e He. apply in_map_iff in He. destruct He as [b [<- _]].
      simpl. now rewrite String.eqb_refl.
    + intros e o He Hk. apply in_map_iff in He. destruct He as [b [<- _]].
      inversion Hk as [[Ht Hd]]. rewrite Ht. now rewrite String.eqb_refl.
  - apply filter_insert_frame.
    + exact string_eqb_iff.
    + apply info_overwrites.
    + simpl. now rewrite String.eqb_refl.
    + intros o Hk. simpl in Hk. rewrite Hk. now rewrite String.eqb_refl.
Qed.

(** * The metadata merge *)

(** C2 (as amended). Under the primary key of [ticker_info], after
    [upsert_ticker_info] the table has one row for the ticker; each of its
    columns is what the call read from the new mapping, [updated_at] is the
    [CURRENT_TIMESTAMP] of the call, and nothing of the row that was there
    before is left.  A second call with the same mapping adds no row and
    stores the same row but for [updated_at], which is the
    [CURRENT_TIMESTAMP] of the second call: it is later than the first
    call's when the clock's reading is. *)
Theorem metadata_merge_replaces_row
    (json_dumps : dict -> string) (now1 now2 : string)
    (conn : db) (ticker : string) (info : dict) :
  pk_info (ticker_info conn) ->
  let stored now :=
    {| Info.ticker := ticker;
       Info.short_name := dict_get info "shortName";
       Info.long_name := dict_get info "longName";
       Info.quote_type := dict_get info "quoteType";
       Info.currency := dict_get info "currency";
       Info.exchange := dict_get info "exchange";
       Info.market_cap := dict_get info "marketCap";
       Info.sector := dict_get info "sector";
       Info.industry := dict_get info "industry";
       Info.country := dict_get info "country";
       Info.website := dict_get info "website";
       Info.raw_info_json := json_dumps info;
       Info.updated_at := now |} in
  let conn1 := upsert_ticker_info json_dumps now1 conn ticker info in
  let conn2 := upsert_ticker_info json_dumps now2 conn1 ticker info in
  select_key Info.ticker String.eqb ticker (ticker_info conn1) = [stored now1]
  /\ select_key Info.ticker String.eqb ticker (ticker_info conn2) = [stored now2]
  /\ pk_info (ticker_info conn2)
  /\ List.length (ticker_info conn2) = List.length (ticker_info conn1)
  /\ (String.ltb now1 now2 = true ->
      String.ltb (Info.updated_at (stored now1)) (Info.updated_at (stored now2)) = true).
Proof.
  intros Hpk stored conn1 conn2.
  assert (Hpk1 : pk_info (ticker_info conn1)).
  { apply insert_NoDup;
      [exact string_eqb_iff | apply info_overwrites | exact Hpk]. }
  assert (Hkeys : map Info.ticker (ticker_info conn2) = map Info.ticker (ticker_info conn1)).
  { apply keys_insert_present;
      [exact string_eqb_iff | apply info_overwrites |].
    apply (keys_insert_self Info.ticker String.eqb (info_do_update now1) string_eqb_iff
             (info_excluded json_dumps now1 ticker info)).
    apply info_overwrites. }
  split; [| split; [| split; [| split]]].
  - apply (select_insert_same Info.ticker String.eqb (info_do_update now1)
             string_eqb_iff (info_excluded json_dumps now1 ticker info));
      [apply info_overwrites | exact Hpk].
  - apply (select_insert_same Info.ticker String.eqb (info_do_update now2)
             string_eqb_iff (info_excluded json_dumps now2 ticker info));
      [apply info_overwrites | exact Hpk1].
  - unfold pk_info. rewrite Hkeys. exact Hpk1.
  - apply (f_equal (@List.length _)) in Hkeys. now rewrite !length_map in Hkeys.
  - intros Hlt. exact Hlt.
Qed.

Lemma metadata_merge_replaces_row_witness :
  select_key Info.ticker String.eqb "XYZ"
    (ticker_info
       (upsert_ticker_info sample_dumps "2024-01-05 10:00:01"
          (upsert_ticker_info sample_dumps "2024-01-05 10:00:00" xyz_store "XYZ" sample_info)
          "XYZ" sample_info))
  = [ {| Info.ticker := "XYZ";
         Info.short_name := VText "Xyz Corp";
         Info.long_name := VNull;
         Info.quote_type := VNull;
         Info.currency := VText "USD";
         Info.exchange := VNull;
         Info.market_cap := VInt 1000000;
         Info.sector := VNull;
         Info.industry := VNull;
         Info.country := VNull;
         Info.website := VNull;
         Info.raw_info_json := "{shortName, currency, marketCap}";
         Info.updated_at := "2024-01-05 10:00:01" |} ]
  /\ String.ltb "2024-01-05 10:00:00" "2024-01-05 10:00:01" = true.
Proof.
  assert (H : pk_info (ticker_info xyz_store)).
  { unfold pk_info. simpl. repeat constructor. intros []. }
  pose proof (metadata_merge_replaces_row sample_dumps
                "2024-01-05 10:00:00" "2024-01-05 10:00:01"
                xyz_store "XYZ" sample_info H) as T.
  split.
  - exact (proj1 (proj2 T)).
  - exact (proj2 (proj2 (proj2 (proj2 T))) eq_refl).
Defined.

(** C2 in the spec's words has [updated_at] advance with the second run.
    Two runs that read the same [CURRENT_TIMESTAMP], which counts whole
    seconds, store the same [updated_at]. *)
Lemma metadata_merge_same_second_counterexample :
  let conn1 :=
    upsert_ticker_info sample_dumps "2024-01-05 10:00:00" xyz_store "XYZ" sample_info in
  let conn2 :=
    upsert_ticker_info sample_dumps "2024-01-05 10:00:00" conn1 "XYZ" sample_info in
  ~ (exists r1 r2,
        select_key Info.ticker String.eqb "XYZ" (ticker_info conn1) = [r1]
        /\ select_key Info.ticker String.eqb "XYZ" (ticker_info conn2) = [r2]
        /\ String.ltb (Info.updated_at r1) (Info.updated_at r2) = true).
Proof.
  intros conn1 conn2 [r1 [r2 [H1 [H2 Hlt]]]].
  vm_compute in H1, H2.
  injection H1 as <-. injection H2 as <-.
  vm_compute in Hlt. discriminate Hlt.
Qed.

(** C3. When the provider's metadata is the empty mapping, [fetch_info]
    (and [fetch_ticker_info]) raises the no-metadata [RuntimeError], [main]
    ends with it, and the store is left as it was: neither table gets or
    changes a row. *)
Theorem empty_metadata_aborts_unchanged
    (json_dumps : dict -> string) (yf : provider) (now : string)
    (a : args) (disk : db) :
  yf_info yf (arg_ticker a) = [] ->
  FetchIcolcap.fetch_info yf (arg_ticker a)
  = inl (RuntimeError ("No metadata returned for ticker: " ++ arg_ticker a))
  /\ FetchIcolcap.main json_dumps yf now a disk
     = (inl (RuntimeError ("No metadata returned for ticker: " ++ arg_ticker a)), disk)
  /\ AddTicker.fetch_ticker_info yf (arg_ticker a)
     = inl (RuntimeError ("No ticker metadata returned for " ++ arg_ticker a))
  /\ AddTicker.main json_dumps yf now a disk
     = (inl (RuntimeError ("No ticker metadata returned for " ++ arg_ticker a)), disk).
Proof.
  intros H.
  unfold FetchIcolcap.main, AddTicker.main, with_connection,
    FetchIcolcap.fetch_info, AddTicker.fetch_ticker_info.
  rewrite H. repeat split.
Qed.

Lemma empty_metadata_aborts_unchanged_witness :
  FetchIcolcap.main sample_dumps sample_provider "2024-01-05 10:00:00"
    {| arg_ticker := "NOPE"; arg_db := "stock_data.db"; arg_period := "max" |} xyz_store
  = (inl (RuntimeError "No metadata returned for ticker: NOPE"), xyz_store).
Proof.
  exact (proj1 (proj2
    (empty_metadata_aborts_unchanged sample_dumps sample_provider "2024-01-05 10:00:00"
       {| arg_ticker := "NOPE"; arg_db := "stock_data.db"; arg_period := "max" |}
       xyz_store eq_refl))).
Defined.

(** * Dates *)









(** * The reporter *)

(** ** The order on TEXT *)

Lemma leb_cases a b :
  String.leb a b = true <-> a = b \/ String_as_OT.lt a b.
Proof.
  unfold String.leb. destruct (String.compare a b) eqn:E.
  - split; [| reflexivity]. intros _. left. now apply String_as_OT.cmp_eq.
  - split; [| reflexivity]. intros _. right. now apply String_as_OT.cmp_lt.
  - split; [discriminate |]. intros [H | H].
    + apply String_as_OT.cmp_eq in H. unfold String_as_OT.cmp in H. congruence.
    + apply String_as_OT.cmp_lt in H. unfold String_as_OT.cmp in H. congruence.
Qed.

Lemma leb_refl a : String.leb a a = true.
Proof. apply leb_cases. now left. Qed.

Lemma leb_trans a b c :
  String.leb a b = true -> String.leb b c = true -> String.leb a c = true.
Proof.
  rewrite !leb_cases. intros [-> | Hab] [-> | Hbc]; auto.
  right. exact (String_as_OT.lt_trans _ _ _ Hab Hbc).
Qed.

Lemma leb_false_flip a b : String.leb a b = false -> String.leb b a = true.
Proof.
  intros H. destruct (String.leb_total a b) as [H' | H']; congruence.
Qed.

(** ** [MIN], [MAX] and [ORDER BY date DESC LIMIT 1] *)

Lemma fold_str_max_spec l d0 :
  In (fold_left CheckTicker.str_max l d0) (d0 :: l)
  /\ forall d, In d (d0 :: l) -> String.leb d (fold_left CheckTicker.str_max l d0) = true.
Proof.
  revert d0. induction l as [| x l IH]; intros d0; simpl.
  - split; [now left |]. intros d [<- | []]. apply leb_refl.
  - destruct (IH (CheckTicker.str_max d0 x)) as [Hin Hmax]. split.
    + destruct Hin as [Hin | Hin]; [| now right; right].
      rewrite <- Hin. unfold CheckTicker.str_max.
      destruct (String.leb d0 x); [right | ]; now left.
    + assert (H0 : String.leb d0 (CheckTicker.str_max d0 x) = true).
      { unfold CheckTicker.str_max. destruct (String.leb d0 x) eqn:E;
          [exact E | apply leb_refl]. }
      assert (Hx : String.leb x (CheckTicker.str_max d0 x) = true).
      { unfold CheckTicker.str_max. destruct (String.leb d0 x) eqn:E;
          [apply leb_refl | now apply leb_false_flip]. }
      intros d [<- | [<- | Hd]].
      * eapply leb_trans; [exact H0 | apply Hmax; now left].
      * eapply leb_trans; [exact Hx | apply Hmax; now left].
      * apply Hmax. now right.
Qed.

Lemma fold_str_min_spec l d0 :
  In (fold_left CheckTicker.str_min l d0) (d0 :: l)
  /\ forall d, In d (d0 :: l) -> String.leb (fold_left CheckTicker.str_min l d0) d = true.
Proof.
  revert d0. induction l as [| x l IH]; intros d0; simpl.
  - split; [now left |]. intros d [<- | []]. apply leb_refl.
  - destruct (IH (CheckTicker.str_min d0 x)) as [Hin Hmin]. split.
    + destruct Hin as [Hin | Hin]; [| now right; right].
      rewrite <- Hin. unfold CheckTicker.str_min.
      destruct (String.leb d0 x); [| right]; now left.
    + assert (H0 : String.leb (CheckTicker.str_min d0 x) d0 = true).
      { unfold CheckTicker.str_min. destruct (String.leb d0 x) eqn:E;
          [apply leb_refl | now apply leb_false_flip]. }
      assert (Hx : String.leb (CheckTicker.str_min d0 x) x = true).
      { unfold CheckTicker.str_min. destruct (String.leb d0 x) eqn:E;
          [exact E | apply leb_refl]. }
      intros d [<- | [<- | Hd]].
      * eapply leb_trans; [apply Hmin; now left | exact H0].
      * eapply leb_trans; [apply Hmin; now left | exact Hx].
      * apply Hmin. now right.
Qed.

(** The first row of [ORDER BY date DESC] is a row with the greatest date. *)
Lemma order_by_date_desc_head l :
  l <> [] ->
  exists r rest,
    CheckTicker.order_by_date_desc l = r :: rest
    /\ In r l
    /\ forall x, In x l -> String.leb (Price.date x) (Price.date r) = true.
Proof.
  induction l as [| a l IH]; [congruence |]. intros _.
  unfold CheckTicker.order_by_date_desc in *. simpl.
  destruct l as [| b l'].
  - simpl. exists a, []. split; [reflexivity |]. split; [now left |].
    intros x [<- | []]. apply leb_refl.
  - destruct IH as [r [rest [E [Hin Hmax]]]]; [discriminate |].
    rewrite E. simpl.
    destruct (String.leb (Price.date a) (Price.date r)) eqn:Har.
    + exists r, (CheckTicker.insert_desc a rest).
      split; [reflexivity |]. split; [now right |].
      intros x [<- | Hx]; [exact Har | now apply Hmax].
    + exists a, (r :: rest). split; [reflexivity |]. split; [now left |].
      intros x [<- | Hx]; [apply leb_refl |].
      eapply leb_trans; [apply Hmax; exact Hx | now apply leb_false_flip].
Qed.

Lemma where_ticker_In ticker t r :
  In r (CheckTicker.where_ticker ticker t) <-> In r t /\ Price.ticker r = ticker.
Proof.
  unfold CheckTicker.where_ticker. rewrite filter_In, String.eqb_eq. reflexivity.
Qed.

(** What the SELECT computes, when it has a row to return. *)
Lemma summary_query_spec conn ticker s :
  CheckTicker.summary_query conn ticker = Some s ->
  let rows := CheckTicker.where_ticker ticker (ticker_prices conn) in
  CheckTicker.s_ticker s = ticker
  /\ CheckTicker.row_count s = List.length rows
  /\ (forall r, In r rows ->
        String.leb (CheckTicker.first_date s) (Price.date r) = true
        /\ String.leb (Price.date r) (CheckTicker.last_date s) = true)
  /\ (exists r, In r rows /\ Price.date r = CheckTicker.first_date s)
  /\ (exists r, In r rows /\ Price.date r = CheckTicker.last_date s
                /\ Price.close r = CheckTicker.latest_close s).
Proof.
  intros H rows. subst rows. unfold CheckTicker.summary_query in H.
  destruct (CheckTicker.where_ticker ticker (ticker_prices conn)) as [| r rest] eqn:E;
    [discriminate |].
  assert (Hr : Price.ticker r = ticker).
  { apply (where_ticker_In ticker (ticker_prices conn) r). rewrite E. now left. }
  injection H as <-. simpl.
  destruct (fold_str_max_spec (map Price.date rest) (Price.date r)) as [Hmax_in Hmax].
  destruct (fold_str_min_spec (map Price.date rest) (Price.date r)) as [Hmin_in Hmin].
  change (Price.date r :: map Price.date rest) with (map Price.date (r :: rest)) in *.
  split; [exact Hr |]. split; [reflexivity |]. split; [| split].
  - intros x Hx. split; [apply Hmin | apply Hmax]; now apply in_map.
  - apply in_map_iff in Hmin_in. destruct Hmin_in as [x [Hd Hx]]. now exists x.
  - unfold CheckTicker.latest_close_of. rewrite Hr, E.
    destruct (order_by_date_desc_head (r :: rest)) as [r0 [rest0 [E0 [Hin0 Hmax0]]]];
      [discriminate |].
    rewrite E0. exists r0. split; [exact Hin0 |]. split; [| reflexivity].
    apply String.leb_antisym.
    + apply Hmax. now apply in_map.
    + apply in_map_iff in Hmax_in. destruct Hmax_in as [x [<- Hx]]. now apply Hmax0.
Qed.

Lemma permutation_of_three {A : Type} (l : list A) (a b c : A) :
  Permutation l [a; b; c] ->
  l = [a; b; c] \/ l = [a; c; b] \/ l = [b; a; c]
  \/ l = [b; c; a] \/ l = [c; a; b] \/ l = [c; b; a].
Proof.
  intros H. pose proof (Permutation_length H) as Hlen.
  destruct l as [| x [| y [| z [| w l]]]]; try discriminate Hlen. clear Hlen.
  assert (Hx : In x [a; b; c]) by (apply (Permutation_in _ H); now left).
  destruct Hx as [<- | [<- | [<- | []]]].
  - apply Permutation_cons_inv in H.
    apply Permutation_sym, Permutation_length_2_inv in H.
    destruct H as [H | H]; injection H as -> ->; auto.
  - apply (Permutation_trans) with (l'' := b :: [a; c]) in H; [| apply perm_swap].
    apply Permutation_cons_inv in H.
    apply Permutation_sym, Permutation_length_2_inv in H.
    destruct H as [H | H]; injection H as -> ->; auto 6.
  - assert (Hp : Permutation [a; b; c] (c :: [a; b])).
    { apply Permutation_sym. apply (Permutation_cons_append [a; b] c). }
    apply (Permutation_trans H) in Hp.
    apply Permutation_cons_inv in Hp.
    apply Permutation_sym, Permutation_length_2_inv in Hp.
    destruct Hp as [Hp | Hp]; injection Hp as -> ->; auto 7.
Qed.

Lemma where_ticker_none ticker t :
  (forall r, In r t -> Price.ticker r <> ticker) ->
  CheckTicker.where_ticker ticker t = [].
Proof.
  intros H. destruct (CheckTicker.where_ticker ticker t) as [| r l] eqn:E;
    [reflexivity |].
  assert (Hr : In r (CheckTicker.where_ticker ticker t)) by (rewrite E; now left).
  apply where_ticker_In in Hr. destruct Hr as [Hin Ht]. now destruct (H r Hin).
Qed.

(** C9. When the store has no [ticker_prices] row for the ticker, the
    SELECT returns no row and [main] prints the no-rows line and returns;
    nothing is raised. *)
Theorem no_rows_reported_without_error
    (conn : db) (ticker db_path : string) :
  (forall r, In r (ticker_prices conn) -> Price.ticker r <> ticker) ->
  CheckTicker.summary_query conn ticker = None
  /\ CheckTicker.main (Some conn) ticker db_path
     = inr (CheckTicker.NoPriceRows ("No price rows found for " ++ ticker)).
Proof.
  intros H. unfold CheckTicker.main, CheckTicker.summary_query.
  rewrite (where_ticker_none _ _ H). split; reflexivity.
Qed.

Lemma no_rows_reported_without_error_witness :
  CheckTicker.main (Some xyz_store) "NOPE" "stock_data.db"
  = inr (CheckTicker.NoPriceRows "No price rows found for NOPE").
Proof.
  apply (no_rows_reported_without_error xyz_store "NOPE" "stock_data.db").
  simpl. intros r H.
  repeat (destruct H as [<- | H]; [discriminate |]). destruct H.
Defined.

(** C4. When the rows of XYZ in [ticker_prices] are those of 2024-01-02
    (close 10.5), 2024-01-03 (close 11.0) and 2024-01-04 (close 9.8), stored
    in any order and among rows of other tickers, the SELECT returns
    row_count 3, first_date 2024-01-02, last_date 2024-01-04 and
    latest_close 9.8, and [main] reports that row.  For every store and
    ticker with a result row, last_date is the greatest date among the
    ticker's rows, a row of the ticker has it, and under the primary key
    latest_close is the close of the ticker's row with that date. *)
Theorem summary_reports_latest_close (conn : db) :
  (forall (r1 r2 r3 : Price.row) (db_path : string),
      Permutation (CheckTicker.where_ticker "XYZ" (ticker_prices conn)) [r1; r2; r3] ->
      Price.date r1 = "2024-01-02" -> Price.close r1 = VReal 10.5 ->
      Price.date r2 = "2024-01-03" -> Price.close r2 = VReal 11.0 ->
      Price.date r3 = "2024-01-04" -> Price.close r3 = VReal 9.8 ->
      let expected :=
        {| CheckTicker.s_ticker := "XYZ";
           CheckTicker.row_count := 3;
           CheckTicker.first_date := "2024-01-02";
           CheckTicker.last_date := "2024-01-04";
           CheckTicker.latest_close := VReal 9.8 |} in
      CheckTicker.summary_query conn "XYZ" = Some expected
      /\ CheckTicker.main (Some conn) "XYZ" db_path = inr (CheckTicker.Report expected))
  /\ (forall (ticker : string) (s : CheckTicker.summary),
        CheckTicker.summary_query conn ticker = Some s ->
        (exists r, In r (ticker_prices conn) /\ Price.ticker r = ticker
                   /\ Price.date r = CheckTicker.last_date s)
        /\ (forall r, In r (ticker_prices conn) -> Price.ticker r = ticker ->
              String.leb (Price.date r) (CheckTicker.last_date s) = true)
        /\ (pk_prices (ticker_prices conn) ->
            forall r, In r (ticker_prices conn) -> Price.ticker r = ticker ->
              Price.date r = CheckTicker.last_date s ->
              CheckTicker.latest_close s = Price.close r)).
Proof.
  split.
  - intros r1 r2 r3 db_path Hperm Hd1 Hc1 Hd2 Hc2 Hd3 Hc3 expected.
    assert (Ht : forall r, In r [r1; r2; r3] -> Price.ticker r = "XYZ").
    { intros r Hr. apply (Permutation_in _ (Permutation_sym Hperm)) in Hr.
      now apply where_ticker_In in Hr. }
    pose proof (Ht r1 (or_introl eq_refl)) as Ht1.
    pose proof (Ht r2 (or_intror (or_introl eq_refl))) as Ht2.
    pose proof (Ht r3 (or_intror (or_intror (or_introl eq_refl)))) as Ht3.
    clear Ht. destruct r1, r2, r3. simpl in *. subst.
    assert (Hq : CheckTicker.summary_query conn "XYZ" = Some expected).
    { unfold CheckTicker.summary_query, CheckTicker.latest_close_of.
      apply permutation_of_three in Hperm.
      destruct Hperm as [E | [E | [E | [E | [E | E]]]]];
        rewrite E; cbn [Price.ticker]; rewrite E; reflexivity. }
    split; [exact Hq |].
    unfold CheckTicker.main. rewrite Hq. reflexivity.
  - intros ticker s Hq.
    destruct (summary_query_spec conn ticker s Hq) as [_ [_ [Hbounds [_ Hlast]]]].
    destruct Hlast as [r0 [Hin0 [Hd0 Hc0]]].
    apply where_ticker_In in Hin0. destruct Hin0 as [Hin0 Ht0].
    split; [| split].
    + exists r0. auto.
    + intros r Hin Ht. apply Hbounds. now apply where_ticker_In.
    + intros Hpk r Hin Ht Hd. rewrite <- Hc0. f_equal.
      apply (key_unique Price.key (ticker_prices conn) r0 r Hpk Hin0 Hin).
      unfold Price.key. now rewrite Ht0, Ht, Hd0, Hd.
Qed.

Lemma summary_reports_latest_close_witness :
  CheckTicker.summary_query xyz_store "XYZ"
  = Some {| CheckTicker.s_ticker := "XYZ";
            CheckTicker.row_count := 3;
            CheckTicker.first_date := "2024-01-02";
            CheckTicker.last_date := "2024-01-04";
            CheckTicker.latest_close := VReal 9.8 |}
  /\ pk_prices (ticker_prices xyz_store)
  /\ VReal 9.8 = Price.close (xyz_row "2024-01-04" 9.8).
Proof.
  pose proof (summary_reports_latest_close xyz_store) as [Hex Hgen].
  assert (Hq : CheckTicker.summary_query xyz_store "XYZ"
               = Some {| CheckTicker.s_ticker := "XYZ";
                         CheckTicker.row_count := 3;
                         CheckTicker.first_date := "2024-01-02";
                         CheckTicker.last_date := "2024-01-04";
                         CheckTicker.latest_close := VReal 9.8 |}).
  { refine (proj1 (Hex (xyz_row "2024-01-02" 10.5) (xyz_row "2024-01-03" 11.0)
                     (xyz_row "2024-01-04" 9.8) "stock_data.db" _
                     eq_refl eq_refl eq_refl eq_refl eq_refl eq_refl)).
    simpl.
    apply (Permutation_trans (l' := [xyz_row "2024-01-03" 11.0;
                                     xyz_row "2024-01-02" 10.5;
                                     xyz_row "2024-01-04" 9.8])).
    - apply perm_skip. apply perm_swap.
    - apply perm_swap. }
  assert (Hpk : pk_prices (ticker_prices xyz_store)).
  { unfold pk_prices. simpl.
    repeat (constructor; [simpl; intuition discriminate |]). constructor. }
  split; [exact Hq |]. split; [exact Hpk |].
  apply (proj2 (proj2 (Hgen "XYZ" _ Hq)) Hpk (xyz_row "2024-01-04" 9.8)).
  - simpl. auto.
  - reflexivity.
  - reflexivity.
Defined.

(** * More on the conflict clause *)

Section OnConflictCompose.
Context {R K : Type}.
Variable key : R -> K.
Variable key_eqb : K -> K -> bool.
Hypothesis key_eqb_eq : forall a b, key_eqb a b = true <-> a = b.

(** A second upsert under the same key hides the first, whatever SET clause
    each of the two ran. *)
Lemma insert_twice_same_key (upd1 upd2 : R -> R -> R) e1 e2 t :
  overwrites key upd1 e1 -> overwrites key upd2 e2 -> key e1 = key e2 ->
  insert_on_conflict key key_eqb upd2 e2 (insert_on_conflict key key_eqb upd1 e1 t)
  = insert_on_conflict key key_eqb upd2 e2 t.
Proof.
  intros H1 H2 Hk. induction t as [| o t IH]; simpl.
  - rewrite Hk, (key_eqb_refl key_eqb key_eqb_eq). now rewrite (H2 e1 Hk).
  - destruct (key_eqb (key o) (key e1)) eqn:E1.
    + apply key_eqb_eq in E1. rewrite (H1 o E1). simpl.
      rewrite Hk, (key_eqb_refl key_eqb key_eqb_eq), (H2 e1 Hk).
      rewrite E1, Hk, (key_eqb_refl key_eqb key_eqb_eq).
      rewrite (H2 o); [reflexivity | congruence].
    + simpl. rewrite <- Hk, E1. now rewrite IH.
Qed.

Variable do_update : R -> R -> R.

Local Abbreviation ins' := (insert_on_conflict key key_eqb do_update).
Local Abbreviation many' := (executemany key key_eqb do_update).
Local Abbreviation sel' := (select_key key key_eqb).
Local Abbreviation ovw' := (overwrites key do_update).

(** Without a conflict the row goes to the end of the table. *)
Lemma insert_absent_appends e t :
  ~ In (key e) (map key t) -> ins' e t = (t ++ [e])%list.
Proof.
  induction t as [| o t IH]; simpl; [reflexivity |].
  intros Hnin. destruct (key_eqb (key o) (key e)) eqn:E.
  - apply key_eqb_eq in E. exfalso. apply Hnin. now left.
  - f_equal. apply IH. intro H. apply Hnin. now right.
Qed.

(** A row with another key stays in the table. *)
Lemma insert_keeps_other e t r :
  In r t -> key r <> key e -> In r (ins' e t).
Proof.
  induction t as [| o t IH]; simpl; [contradiction |].
  intros [-> | Hin] Hne.
  - destruct (key_eqb (key r) (key e)) eqn:E.
    + apply key_eqb_eq in E. contradiction.
    + now left.
  - destruct (key_eqb (key o) (key e)); right; auto.
Qed.

Lemma executemany_keeps_other rows t r :
  In r t -> ~ In (key r) (map key rows) -> In r (many' rows t).
Proof.
  unfold executemany. revert t.
  induction rows as [| e rows IH]; simpl; intros t Hin Hnin; [exact Hin |].
  apply IH.
  - apply insert_keeps_other; [exact Hin |]. intro H. apply Hnin. now left.
  - intro H. apply Hnin. now right.
Qed.

Lemma select_executemany_other rows t k :
  Forall ovw' rows -> ~ In k (map key rows) -> sel' k (many' rows t) = sel' k t.
Proof.
  unfold executemany. intros Hov. revert t.
  induction Hov as [| e rows He Hov IH]; simpl; intros t Hnin; [reflexivity |].
  rewrite IH by (intro H; apply Hnin; now right).
  apply select_insert_other; [exact key_eqb_eq | exact He |].
  intro H. apply Hnin. now left.
Qed.

(** The last row of a batch under a key it holds. *)
Lemma last_of_key rows k :
  In k (map key rows) ->
  exists before e after,
    rows = (before ++ e :: after)%list /\ key e = k /\ ~ In k (map key after).
Proof.
  induction rows as [| r rows IH]; simpl; [contradiction |].
  intros Hin.
  destruct (key_in_dec key key_eqb key_eqb_eq k rows) as [Hlater | Hnot].
  - destruct (IH Hlater) as [before [e [after [-> [Hk Hlast]]]]].
    exists (r :: before), e, after. auto.
  - destruct Hin as [Hk | Hin]; [| contradiction].
    exists [], r, rows. auto.
Qed.

Lemma select_key_cons k x l :
  sel' k (x :: l) = if key_eqb (key x) k then x :: sel' k l else sel' k l.
Proof. reflexivity. Qed.

(** Under the primary key, the key column and what each key selects fix
    the table. *)
Lemma table_ext (l1 l2 : list R) :
  NoDup (map key l1) ->
  map key l1 = map key l2 ->
  (forall k, sel' k l1 = sel' k l2) ->
  l1 = l2.
Proof.
  revert l2. induction l1 as [| a l1 IH]; intros [| b l2] Hnd Hkeys Hsel;
    try discriminate Hkeys; [reflexivity |].
  simpl in Hkeys. injection Hkeys as Hab Hkeys.
  inversion Hnd as [| ? ? Hnin Hnd']; subst.
  assert (Hnin2 : ~ In (key b) (map key l2)) by (rewrite <- Hkeys, <- Hab; exact Hnin).
  pose proof (Hsel (key a)) as Ha. rewrite !select_key_cons in Ha.
  rewrite <- Hab, (key_eqb_refl key_eqb key_eqb_eq) in Ha.
  injection Ha as Heq _. subst b. f_equal.
  apply IH; [exact Hnd' | exact Hkeys |].
  intros k. pose proof (Hsel k) as Hk. rewrite !select_key_cons in Hk.
  destruct (key_eqb (key a) k) eqn:E.
  - apply key_eqb_eq in E. subst k.
    rewrite (select_key_absent key key_eqb key_eqb_eq _ _ Hnin).
    now rewrite (select_key_absent key key_eqb key_eqb_eq _ _ Hnin2).
  - exact Hk.
Qed.

(** Running a batch again over its own result changes nothing. *)
Lemma executemany_idempotent rows t :
  Forall ovw' rows -> NoDup (map key t) ->
  many' rows (many' rows t) = many' rows t.
Proof.
  intros Hov Hnd.
  assert (Hnd1 : NoDup (map key (many' rows t)))
    by (apply executemany_NoDup; assumption).
  apply table_ext.
  - apply executemany_NoDup; assumption.
  - now apply executemany_twice_keys.
  - intros k. destruct (key_in_dec key key_eqb key_eqb_eq k rows) as [Hin | Hnin].
    + destruct (last_of_key rows k Hin) as [before [e [after [-> [<- Hlast]]]]].
      rewrite !(select_executemany_last key key_eqb do_update key_eqb_eq);
        auto.
    + now rewrite !select_executemany_other.
Qed.

(** The keys after a batch: the keys before, in place, then the keys the
    batch brought, each once. *)
Lemma executemany_keys_appended rows t :
  Forall ovw' rows ->
  exists added,
    map key (many' rows t) = (map key t ++ added)%list
    /\ NoDup added
    /\ (forall k, In k added -> In k (map key rows) /\ ~ In k (map key t))
    /\ List.length added <= List.length rows.
Proof.
  unfold executemany. intros Hov. revert t.
  induction Hov as [| e rows He Hov IH]; simpl; intros t.
  - exists []. rewrite app_nil_r. repeat split; [constructor | contradiction | contradiction | auto].
  - destruct (IH (ins' e t)) as [added [Hk [Hnd [Hin Hlen]]]].
    destruct (key_in_dec key key_eqb key_eqb_eq (key e) t) as [Hpres | Habs].
    + rewrite (keys_insert_present key key_eqb do_update key_eqb_eq e t He Hpres) in Hk, Hin.
      exists added. split; [exact Hk |]. split; [exact Hnd |]. split.
      * intros k Hk'. destruct (Hin k Hk') as [H1 H2]. auto.
      * auto.
    + rewrite (keys_insert_absent key key_eqb do_update key_eqb_eq e t Habs) in Hk, Hin.
      exists (key e :: added). split; [| split; [| split]].
      * rewrite Hk, <- app_assoc. reflexivity.
      * constructor; [| exact Hnd]. intro H. destruct (Hin _ H) as [_ H2].
        apply H2. apply in_or_app. right. now left.
      * intros k [<- | Hk']; [auto |].
        destruct (Hin k Hk') as [H1 H2]. split; [auto |].
        intro H. apply H2. apply in_or_app. now left.
      * simpl. lia.
Qed.

End OnConflictCompose.

(** * More on the two upserts *)

Lemma in_price_rows_key ticker history k :
  In k (map Price.key (map (price_tuple ticker) history)) <->
  exists b, In b history /\ k = (ticker, normalize_date (index b)).
Proof.
  rewrite keys_price_tuple, in_map_iff. split.
  - intros [b [Hk Hb]]. exists b. auto.
  - intros [b [Hb Hk]]. exists b. auto.
Qed.

(** X1. Under the primary key of [ticker_prices], a second
    [upsert_price_history] over the same provider data leaves the whole
    store as the first left it, every cell of every row, and returns the
    same count. *)
Theorem price_merge_idempotent
    (yf : provider) (conn : db) (ticker period : string) :
  pk_prices (ticker_prices conn) ->
  let first := upsert_price_history yf conn ticker period in
  upsert_price_history yf (fst first) ticker period = first.
Proof.
  intros Hpk first. subst first.
  rewrite !upsert_price_history_unfold. simpl. unfold executemany_prices.
  rewrite (executemany_idempotent Price.key price_key_eqb price_key_eqb_eq
             price_do_update _ _ (price_overwrites_all _) Hpk).
  reflexivity.
Qed.

Lemma price_merge_idempotent_witness :
  upsert_price_history sample_provider
    (fst (upsert_price_history sample_provider xyz_store "XYZ" "max")) "XYZ" "max"
  = upsert_price_history sample_provider xyz_store "XYZ" "max".
Proof.
  apply (price_merge_idempotent sample_provider xyz_store "XYZ" "max").
  unfold pk_prices. simpl.
  repeat (constructor; [simpl; intuition discriminate |]). constructor.
Defined.

(** X2. A metadata merge for a ticker hides the one before it: after two
    [upsert_ticker_info] calls for one ticker the store is what the second
    call alone would have left, whatever the first mapping and clock were. *)
Theorem metadata_merge_hides_earlier
    (json_dumps : dict -> string) (now1 now2 : string)
    (conn : db) (ticker : string) (info1 info2 : dict) :
  upsert_ticker_info json_dumps now2
    (upsert_ticker_info json_dumps now1 conn ticker info1) ticker info2
  = upsert_ticker_info json_dumps now2 conn ticker info2.
Proof.
  unfold upsert_ticker_info. simpl. f_equal.
  apply (insert_twice_same_key Info.ticker String.eqb string_eqb_iff).
  - apply info_overwrites.
  - apply info_overwrites.
  - reflexivity.
Qed.

(** X3. The first [upsert_ticker_info] for a ticker puts its row at the end
    of [ticker_info]; a later one keeps every row where it was and adds
    none. *)
Theorem metadata_merge_appends_or_keeps_place
    (json_dumps : dict -> string) (now : string)
    (conn : db) (ticker : string) (info : dict) :
  (~ In ticker (map Info.ticker (ticker_info conn)) ->
   ticker_info (upsert_ticker_info json_dumps now conn ticker info)
   = (ticker_info conn ++ [info_excluded json_dumps now ticker info])%list)
  /\ (In ticker (map Info.ticker (ticker_info conn)) ->
      map Info.ticker (ticker_info (upsert_ticker_info json_dumps now conn ticker info))
      = map Info.ticker (ticker_info conn)).
Proof.
  split; intros H; simpl.
  - now apply (insert_absent_appends Info.ticker String.eqb string_eqb_iff).
  - apply keys_insert_present;
      [exact string_eqb_iff | apply info_overwrites | exact H].
Qed.

Lemma metadata_merge_appends_or_keeps_place_witness :
  ticker_info (upsert_ticker_info sample_dumps "2024-01-05 10:00:00" xyz_store "ABC" sample_info)
  = [stale_info; info_excluded sample_dumps "2024-01-05 10:00:00" "ABC" sample_info]
  /\ map Info.ticker
       (ticker_info (upsert_ticker_info sample_dumps "2024-01-05 10:00:00" xyz_store "XYZ"
                       sample_info))
     = ["XYZ"].
Proof.
  split.
  - apply (proj1 (metadata_merge_appends_or_keeps_place sample_dumps
                    "2024-01-05 10:00:00" xyz_store "ABC" sample_info)).
    simpl. intros [H | []]. discriminate H.
  - apply (proj2 (metadata_merge_appends_or_keeps_place sample_dumps
                    "2024-01-05 10:00:00" xyz_store "XYZ" sample_info)).
    simpl. now left.
Defined.

(** X4. [upsert_price_history] deletes and moves nothing: the keys of
    [ticker_prices] after the call are the keys before it, in place,
    followed by new keys, each once, each the given ticker with the date of
    a fetched bar and not in the table before.  The table grows by at most
    the number of bars. *)
Theorem price_merge_appends_new_keys
    (yf : provider) (conn : db) (ticker period : string) :
  exists added,
    map Price.key (ticker_prices (fst (upsert_price_history yf conn ticker period)))
    = (map Price.key (ticker_prices conn) ++ added)%list
    /\ NoDup added
    /\ (forall k, In k added ->
          ~ In k (map Price.key (ticker_prices conn))
          /\ exists b, In b (yf_history yf ticker period)
                       /\ k = (ticker, normalize_date (index b)))
    /\ List.length (ticker_prices (fst (upsert_price_history yf conn ticker period)))
       = List.length (ticker_prices conn) + List.length added
    /\ List.length added <= List.length (yf_history yf ticker period).
Proof.
  rewrite upsert_price_history_unfold. simpl. unfold executemany_prices.
  destruct (executemany_keys_appended Price.key price_key_eqb price_key_eqb_eq
              price_do_update (map (price_tuple ticker) (yf_history yf ticker period))
              (ticker_prices conn) (price_overwrites_all _))
    as [added [Hk [Hnd [Hin Hlen]]]].
  exists added. split; [exact Hk |]. split; [exact Hnd |]. split; [| split].
  - intros k Hk'. destruct (Hin k Hk') as [H1 H2]. split; [exact H2 |].
    now apply in_price_rows_key.
  - apply (f_equal (@List.length _)) in Hk.
    now rewrite length_app, !length_map in Hk.
  - now rewrite length_map in Hlen.
Qed.

(** X5. A stored row of another ticker, or of a date that no fetched bar
    has, is in [ticker_prices] after [upsert_price_history] as it was. *)
Theorem price_merge_keeps_rows_outside_batch
    (yf : provider) (conn : db) (ticker period : string) (r : Price.row) :
  In r (ticker_prices conn) ->
  (Price.ticker r <> ticker
   \/ forall b, In b (yf_history yf ticker period) ->
        normalize_date (index b) <> Price.date r) ->
  In r (ticker_prices (fst (upsert_price_history yf conn ticker period))).
Proof.
  intros Hin Hout. rewrite upsert_price_history_unfold. simpl.
  unfold executemany_prices.
  apply (executemany_keeps_other Price.key price_key_eqb price_key_eqb_eq);
    [exact Hin |].
  intros Hk. apply in_price_rows_key in Hk. destruct Hk as [b [Hb Hk]].
  unfold Price.key in Hk. injection Hk as Ht Hd.
  destruct Hout as [Hne | Hdates]; [contradiction |].
  exact (Hdates b Hb (eq_sym Hd)).
Qed.

Lemma price_merge_keeps_rows_outside_batch_witness :
  In (xyz_row "2024-01-04" 9.8)
    (ticker_prices (fst (upsert_price_history sample_provider xyz_store "XYZ" "max"))).
Proof.
  apply (price_merge_keeps_rows_outside_batch sample_provider xyz_store "XYZ" "max").
  - simpl. auto.
  - right. simpl. intros b [<- | [<- | [<- | []]]]; discriminate.
Defined.

(** * More on the two [main]s *)

Lemma fetch_icolcap_main_ok json_dumps yf now a disk :
  yf_info yf (arg_ticker a) <> [] ->
  FetchIcolcap.main json_dumps yf now a disk
  = (inr ("Saved ticker info and "
          ++ str_nat (List.length (yf_history yf (arg_ticker a) (arg_period a)))
          ++ " price rows for " ++ arg_ticker a ++ " into " ++ arg_db a),
     fst (upsert_price_history yf
            (upsert_ticker_info json_dumps now disk (arg_ticker a)
               (yf_info yf (arg_ticker a)))
            (arg_ticker a) (arg_period a))).
Proof.
  intros H. unfold FetchIcolcap.main, with_connection, FetchIcolcap.fetch_info,
    create_tables.
  destruct (yf_info yf (arg_ticker a)) as [| kv info] eqn:E; [congruence |].
  rewrite upsert_price_history_unfold. reflexivity.
Qed.

Lemma add_ticker_main_ok json_dumps yf now a disk :
  yf_info yf (arg_ticker a) <> [] ->
  AddTicker.main json_dumps yf now a disk
  = (inr ("Upserted " ++ arg_ticker a ++ ": "
          ++ str_nat (List.length (yf_history yf (arg_ticker a) (arg_period a)))
          ++ " price rows into " ++ arg_db a),
     fst (upsert_price_history yf
            (upsert_ticker_info json_dumps now disk (arg_ticker a)
               (yf_info yf (arg_ticker a)))
            (arg_ticker a) (arg_period a))).
Proof.
  intros H. unfold AddTicker.main, with_connection, AddTicker.fetch_ticker_info,
    create_tables.
  destruct (yf_info yf (arg_ticker a)) as [| kv info] eqn:E; [congruence |].
  rewrite upsert_price_history_unfold. reflexivity.
Qed.

(** X6. When the provider has metadata for the ticker, [main] of either
    fetch script raises nothing and prints a line that gives the number of
    fetched bars; both leave the same store.  Under the primary key of
    [ticker_info] that store has the one metadata row read from the mapping,
    and a price row under the date of every fetched bar.  With an empty
    history the metadata row is still written and [ticker_prices] is as
    before. *)
Theorem main_commits_metadata_and_prices
    (json_dumps : dict -> string) (yf : provider) (now : string)
    (a : args) (disk : db) :
  pk_info (ticker_info disk) ->
  yf_info yf (arg_ticker a) <> [] ->
  let history := yf_history yf (arg_ticker a) (arg_period a) in
  let store := snd (FetchIcolcap.main json_dumps yf now a disk) in
  (exists path,
      fst (FetchIcolcap.main json_dumps yf now a disk)
      = inr ("Saved ticker info and " ++ str_nat (List.length history)
             ++ " price rows for " ++ arg_ticker a ++ " into " ++ path))
  /\ (exists path,
        AddTicker.main json_dumps yf now a disk
        = (inr ("Upserted " ++ arg_ticker a ++ ": " ++ str_nat (List.length history)
                ++ " price rows into " ++ path), store))
  /\ select_key Info.ticker String.eqb (arg_ticker a) (ticker_info store)
     = [info_excluded json_dumps now (arg_ticker a) (yf_info yf (arg_ticker a))]
  /\ (forall b, In b history ->
        In (arg_ticker a, normalize_date (index b))
          (map Price.key (ticker_prices store)))
  /\ (history = [] -> ticker_prices store = ticker_prices disk).
Proof.
  intros Hpk Hinfo history store. subst store history.
  rewrite (fetch_icolcap_main_ok _ _ _ _ _ Hinfo).
  rewrite (add_ticker_main_ok _ _ _ _ _ Hinfo).
  rewrite upsert_price_history_unfold. simpl.
  split; [exists (arg_db a); reflexivity |].
  split; [exists (arg_db a); reflexivity |]. split; [| split].
  - apply (select_insert_same Info.ticker String.eqb (info_do_update now)
             string_eqb_iff (info_excluded json_dumps now (arg_ticker a)
                               (yf_info yf (arg_ticker a))));
      [apply info_overwrites | exact Hpk].
  - intros b Hb. unfold executemany_prices.
    apply executemany_keys_rows;
      [exact price_key_eqb_eq | apply price_overwrites_all |].
    apply in_price_rows_key. exists b. auto.
  - intros ->. reflexivity.
Qed.

Lemma main_commits_metadata_and_prices_witness :
  select_key Info.ticker String.eqb "XYZ"
    (ticker_info
       (snd (FetchIcolcap.main sample_dumps sample_provider "2024-01-05 10:00:00"
               {| arg_ticker := "XYZ"; arg_db := "stock_data.db"; arg_period := "max" |}
               xyz_store)))
  = [info_excluded sample_dumps "2024-01-05 10:00:00" "XYZ" sample_info]
  /\ In ("XYZ", "2024-01-02")
       (map Price.key
          (ticker_prices
             (snd (FetchIcolcap.main sample_dumps sample_provider "2024-01-05 10:00:00"
                     {| arg_ticker := "XYZ"; arg_db := "stock_data.db";
                        arg_period := "max" |}
                     xyz_store)))).
Proof.
  assert (Hpk : pk_info (ticker_info xyz_store)).
  { unfold pk_info. simpl. repeat constructor. intros []. }
  assert (Hinfo : yf_info sample_provider "XYZ" <> []) by discriminate.
  pose proof (main_commits_metadata_and_prices sample_dumps sample_provider
                "2024-01-05 10:00:00"
                {| arg_ticker := "XYZ"; arg_db := "stock_data.db"; arg_period := "max" |}
                xyz_store Hpk Hinfo) as [_ [_ [H3 [H4 _]]]].
  split; [exact H3 |].
  apply (H4 (sample_bar 2 0 10.5)). simpl. auto.
Defined.

(** X7. The two fetch scripts do the same to the store: on the same
    provider, clock, arguments and store, both [main]s leave the same store
    and either both raise or both print. *)
Theorem both_mains_leave_same_store
    (json_dumps : dict -> string) (yf : provider) (now : string)
    (a : args) (disk : db) :
  snd (FetchIcolcap.main json_dumps yf now a disk)
  = snd (AddTicker.main json_dumps yf now a disk)
  /\ match fst (FetchIcolcap.main json_dumps yf now a disk),
           fst (AddTicker.main json_dumps yf now a disk) with
     | inl (RuntimeError _), inl (RuntimeError _) => True
     | inr _, inr _ => True
     | _, _ => False
     end.
Proof.
  unfold FetchIcolcap.main, AddTicker.main, with_connection,
    FetchIcolcap.fetch_info, AddTicker.fetch_ticker_info, create_tables.
  destruct (yf_info yf (arg_ticker a)) as [| kv info].
  - split; [reflexivity | exact I].
  - rewrite upsert_price_history_unfold. split; [reflexivity | exact I].
Qed.

(** X8. [main] keeps the primary keys of both tables, whether it ends with
    the no-metadata error or commits. *)
Theorem main_keeps_primary_keys
    (json_dumps : dict -> string) (yf : provider) (now : string)
    (a : args) (disk : db) :
  pk_info (ticker_info disk) /\ pk_prices (ticker_prices disk) ->
  (pk_info (ticker_info (snd (FetchIcolcap.main json_dumps yf now a disk)))
   /\ pk_prices (ticker_prices (snd (FetchIcolcap.main json_dumps yf now a disk))))
  /\ (pk_info (ticker_info (snd (AddTicker.main json_dumps yf now a disk)))
      /\ pk_prices (ticker_prices (snd (AddTicker.main json_dumps yf now a disk)))).
Proof.
  intros [Hi Hp].
  assert (H : forall info,
    pk_info (ticker_info (fst (upsert_price_history yf
       (upsert_ticker_info json_dumps now disk (arg_ticker a) info)
       (arg_ticker a) (arg_period a))))
    /\ pk_prices (ticker_prices (fst (upsert_price_history yf
       (upsert_ticker_info json_dumps now disk (arg_ticker a) info)
       (arg_ticker a) (arg_period a))))).
  { intros info. rewrite upsert_price_history_unfold. simpl. split.
    - apply insert_NoDup; [exact string_eqb_iff | apply info_overwrites | exact Hi].
    - apply executemany_NoDup;
        [exact price_key_eqb_eq | apply price_overwrites_all | exact Hp]. }
  unfold FetchIcolcap.main, AddTicker.main, with_connection,
    FetchIcolcap.fetch_info, AddTicker.fetch_ticker_info, create_tables.
  destruct (yf_info yf (arg_ticker a)) as [| kv info].
  - simpl. auto.
  - specialize (H (kv :: info)).
    rewrite upsert_price_history_unfold in *. simpl in *. auto.
Qed.

Lemma main_keeps_primary_keys_witness :
  pk_prices
    (ticker_prices
       (snd (FetchIcolcap.main sample_dumps sample_provider "2024-01-05 10:00:00"
               {| arg_ticker := "XYZ"; arg_db := "stock_data.db"; arg_period := "max" |}
               xyz_store))).
Proof.
  apply (main_keeps_primary_keys sample_dumps sample_provider "2024-01-05 10:00:00"
           {| arg_ticker := "XYZ"; arg_db := "stock_data.db"; arg_period := "max" |}
           xyz_store).
  split.
  - unfold pk_info. simpl. repeat constructor. intros [].
  - unfold pk_prices. simpl.
    repeat (constructor; [simpl; intuition discriminate |]). constructor.
Defined.

(** * More on the reporter *)

Lemma summary_query_none conn ticker :
  CheckTicker.summary_query conn ticker = None <->
  forall r, In r (ticker_prices conn) -> Price.ticker r <> ticker.
Proof.
  split.
  - unfold CheckTicker.summary_query.
    destruct (CheckTicker.where_ticker ticker (ticker_prices conn)) as [| x l] eqn:E;
      [| discriminate].
    intros _ r Hin Ht.
    assert (Hr : In r (CheckTicker.where_ticker ticker (ticker_prices conn)))
      by (apply where_ticker_In; auto).
    rewrite E in Hr. contradiction.
  - intros H. unfold CheckTicker.summary_query.
    now rewrite (where_ticker_none _ _ H).
Qed.

Lemma summary_row_count_positive conn ticker s :
  CheckTicker.summary_query conn ticker = Some s -> 1 <= CheckTicker.row_count s.
Proof.
  unfold CheckTicker.summary_query.
  destruct (CheckTicker.where_ticker ticker (ticker_prices conn)) as [| x l];
    [discriminate |].
  intros H. injection H as <-. simpl. lia.
Qed.

Lemma main_reports_summary conn ticker db_path s :
  CheckTicker.summary_query conn ticker = Some s ->
  CheckTicker.main (Some conn) ticker db_path = inr (CheckTicker.Report s).
Proof.
  intros H. unfold CheckTicker.main. rewrite H.
  pose proof (summary_row_count_positive _ _ _ H) as Hpos.
  destruct (CheckTicker.row_count s); [lia | reflexivity].
Qed.

(** X9. On a store that holds the [ticker_prices] table, as every store
    made by [create_tables] does, the reporter's [main] prints the no-rows
    line exactly when the table has no row of the ticker, and prints a
    result row exactly when the SELECT returns it: the count-is-zero test
    of [main] decides nothing.  The ticker of a result row is the one asked
    for and its count is the number of the ticker's rows, at least one. *)
Theorem reporter_prints_rows_or_none
    (conn : db) (ticker db_path : string) :
  (CheckTicker.main (Some conn) ticker db_path
   = inr (CheckTicker.NoPriceRows ("No price rows found for " ++ ticker))
   <-> forall r, In r (ticker_prices conn) -> Price.ticker r <> ticker)
  /\ (forall s,
        CheckTicker.main (Some conn) ticker db_path = inr (CheckTicker.Report s)
        <-> CheckTicker.summary_query conn ticker = Some s)
  /\ (forall s,
        CheckTicker.summary_query conn ticker = Some s ->
        CheckTicker.s_ticker s = ticker
        /\ CheckTicker.row_count s
           = List.length (CheckTicker.where_ticker ticker (ticker_prices conn))
        /\ 1 <= CheckTicker.row_count s).
Proof.
  split; [| split].
  - rewrite <- summary_query_none.
    destruct (CheckTicker.summary_query conn ticker) as [s |] eqn:E.
    + rewrite (main_reports_summary _ _ _ _ E). split; discriminate.
    + unfold CheckTicker.main. rewrite E. split; reflexivity.
  - intros s. destruct (CheckTicker.summary_query conn ticker) as [s' |] eqn:E.
    + rewrite (main_reports_summary _ _ _ _ E). split; congruence.
    + unfold CheckTicker.main. rewrite E. split; discriminate.
  - intros s E. destruct (summary_query_spec conn ticker s E) as [Ht [Hn _]].
    split; [exact Ht |]. split; [exact Hn |].
    exact (summary_row_count_positive _ _ _ E).
Qed.

Lemma reporter_prints_rows_or_none_witness :
  CheckTicker.main (Some xyz_store) "NOPE" "stock_data.db"
  = inr (CheckTicker.NoPriceRows "No price rows found for NOPE")
  /\ CheckTicker.main (Some xyz_store) "XYZ" "stock_data.db"
     = inr (CheckTicker.Report
              {| CheckTicker.s_ticker := "XYZ";
                 CheckTicker.row_count := 3;
                 CheckTicker.first_date := "2024-01-02";
                 CheckTicker.last_date := "2024-01-04";
                 CheckTicker.latest_close := VReal 9.8 |}).
Proof.
  split.
  - apply (proj2 (proj1 (reporter_prints_rows_or_none xyz_store "NOPE" "stock_data.db"))).
    simpl. intros r H.
    repeat (destruct H as [<- | H]; [discriminate |]). destruct H.
  - apply (proj2 (proj1 (proj2
             (reporter_prints_rows_or_none xyz_store "XYZ" "stock_data.db")) _)).
    reflexivity.
Defined.

(** X10. In a result row of the reporter's SELECT, first_date is the least
    date among the ticker's rows and a row of the ticker has it; it is not
    after last_date. *)
Theorem summary_first_date_is_least
    (conn : db) (ticker : string) (s : CheckTicker.summary) :
  CheckTicker.summary_query conn ticker = Some s ->
  (exists r, In r (ticker_prices conn) /\ Price.ticker r = ticker
             /\ Price.date r = CheckTicker.first_date s)
  /\ (forall r, In r (ticker_prices conn) -> Price.ticker r = ticker ->
        String.leb (CheckTicker.first_date s) (Price.date r) = true)
  /\ String.leb (CheckTicker.first_date s) (CheckTicker.last_date s) = true.
Proof.
  intros Hq.
  destruct (summary_query_spec conn ticker s Hq) as [_ [_ [Hbounds [Hfirst Hlast]]]].
  destruct Hfirst as [r0 [Hin0 Hd0]].
  pose proof (proj2 (Hbounds r0 Hin0)) as Hle. rewrite Hd0 in Hle.
  apply where_ticker_In in Hin0. destruct Hin0 as [Hin0 Ht0].
  split; [exists r0; auto |]. split; [| exact Hle].
  intros r Hin Ht. apply Hbounds. now apply where_ticker_In.
Qed.

Lemma summary_first_date_is_least_witness :
  String.leb "2024-01-02" (Price.date (xyz_row "2024-01-03" 11.0)) = true
  /\ String.leb "2024-01-02" "2024-01-04" = true.
Proof.
  pose proof (summary_first_date_is_least xyz_store "XYZ"
                {| CheckTicker.s_ticker := "XYZ";
                   CheckTicker.row_count := 3;
                   CheckTicker.first_date := "2024-01-02";
                   CheckTicker.last_date := "2024-01-04";
                   CheckTicker.latest_close := VReal 9.8 |} eq_refl) as [_ [Hall Hle]].
  split; [| exact Hle].
  apply (Hall (xyz_row "2024-01-03" 11.0)); [simpl; auto | reflexivity].
Defined.



(** * More on the stored dates *)



(** ** The order of TEXT on stored dates *)



Section FmtOrder.
Variables w bound : nat.
Hypothesis fmt_step :
  forallb (fun n => match String.compare (fmt_0d w n) (fmt_0d w (S n)) with
                    | Lt => true
                    | _ => false
                    end) (seq 0 bound) = true.



End FmtOrder.








(** * The report and the order of the rows *)

Lemma permutation_filter {A : Type} (f : A -> bool) (l l' : list A) :
  Permutation l l' -> Permutation (filter f l) (filter f l').
Proof.
  induction 1 as [| x l l' _ IH | x y l | l l' l'' _ IH1 _ IH2]; simpl.
  - constructor.
  - destruct (f x); [now constructor | exact IH].
  - destruct (f x), (f y); try apply Permutation_refl. apply perm_swap.
  - exact (Permutation_trans IH1 IH2).
Qed.

(** X14. The reporter's result does not depend on the order in which the
    rows sit in [ticker_prices]: under the primary key, two stores whose
    price tables hold the same rows give the same result row, or both
    none. *)
Theorem report_independent_of_row_order
    (conn1 conn2 : db) (ticker : string) :
  pk_prices (ticker_prices conn1) ->
  Permutation (ticker_prices conn1) (ticker_prices conn2) ->
  CheckTicker.summary_query conn1 ticker = CheckTicker.summary_query conn2 ticker.
Proof.
  intros Hpk Hperm.
  assert (Hfilter : Permutation (CheckTicker.where_ticker ticker (ticker_prices conn1))
                      (CheckTicker.where_ticker ticker (ticker_prices conn2)))
    by (apply permutation_filter; exact Hperm).
  destruct (CheckTicker.summary_query conn1 ticker) as [s1 |] eqn:E1;
    destruct (CheckTicker.summary_query conn2 ticker) as [s2 |] eqn:E2.
  - destruct (summary_query_spec _ _ _ E1) as [Ht1 [Hn1 [Hb1 [Hf1 Hl1]]]].
    destruct (summary_query_spec _ _ _ E2) as [Ht2 [Hn2 [Hb2 [Hf2 Hl2]]]].
    destruct Hf1 as [f1 [Hf1 Hdf1]]. destruct Hf2 as [f2 [Hf2 Hdf2]].
    destruct Hl1 as [r1 [Hr1 [Hd1 Hc1]]]. destruct Hl2 as [r2 [Hr2 [Hd2 Hc2]]].
    assert (Hfirst : CheckTicker.first_date s1 = CheckTicker.first_date s2).
    { apply String.leb_antisym.
      - rewrite <- Hdf2. apply Hb1.
        exact (Permutation_in _ (Permutation_sym Hfilter) Hf2).
      - rewrite <- Hdf1. apply Hb2. exact (Permutation_in _ Hfilter Hf1). }
    assert (Hlast : CheckTicker.last_date s1 = CheckTicker.last_date s2).
    { apply String.leb_antisym.
      - rewrite <- Hd1. apply Hb2. exact (Permutation_in _ Hfilter Hr1).
      - rewrite <- Hd2. apply Hb1.
        exact (Permutation_in _ (Permutation_sym Hfilter) Hr2). }
    assert (Hclose : CheckTicker.latest_close s1 = CheckTicker.latest_close s2).
    { rewrite <- Hc1, <- Hc2. f_equal.
      apply (Permutation_in _ (Permutation_sym Hfilter)) in Hr2.
      apply where_ticker_In in Hr1. destruct Hr1 as [Hin1 Hk1].
      apply where_ticker_In in Hr2. destruct Hr2 as [Hin2 Hk2].
      apply (key_unique Price.key (ticker_prices conn1) r1 r2 Hpk Hin1 Hin2).
      unfold Price.key. now rewrite Hk1, Hk2, Hd1, Hd2, Hlast. }
    destruct s1, s2. simpl in *. subst.
    now rewrite Hfirst, Hlast, Hclose, (Permutation_length Hfilter).
  - exfalso.
    destruct (summary_query_spec _ _ _ E1) as [_ [_ [_ [_ [r [Hr _]]]]]].
    apply (Permutation_in _ Hfilter) in Hr. apply where_ticker_In in Hr.
    exact (proj1 (summary_query_none conn2 ticker) E2 r (proj1 Hr) (proj2 Hr)).
  - exfalso.
    destruct (summary_query_spec _ _ _ E2) as [_ [_ [_ [_ [r [Hr _]]]]]].
    apply (Permutation_in _ (Permutation_sym Hfilter)) in Hr.
    apply where_ticker_In in Hr.
    exact (proj1 (summary_query_none conn1 ticker) E1 r (proj1 Hr) (proj2 Hr)).
  - reflexivity.
Qed.

Lemma report_independent_of_row_order_witness :
  CheckTicker.summary_query xyz_store "XYZ"
  = CheckTicker.summary_query
      {| ticker_info := [];
         ticker_prices :=
           [abc_row "2024-01-05" 3.0; xyz_row "2024-01-03" 11.0;
            xyz_row "2024-01-04" 9.8; xyz_row "2024-01-02" 10.5;
            abc_row "2024-01-02" 2.5] |} "XYZ".
Proof.
  apply (report_independent_of_row_order xyz_store).
  - unfold pk_prices. simpl.
    repeat (constructor; [simpl; intuition discriminate |]). constructor.
  - simpl. apply perm_swap.
Defined.

(** * Running a fetch script again *)

(** X15. Under the primary key of [ticker_prices], running [main] of a
    fetch script twice against the same provider data leaves exactly the
    store that the second run alone would have left, whatever the clocks of
    the two runs and whether or not the provider has metadata. *)
Theorem main_rerun_leaves_second_run
    (json_dumps : dict -> string) (yf : provider) (now1 now2 : string)
    (a : args) (disk : db) :
  pk_prices (ticker_prices disk) ->
  snd (FetchIcolcap.main json_dumps yf now2 a
         (snd (FetchIcolcap.main json_dumps yf now1 a disk)))
  = snd (FetchIcolcap.main json_dumps yf now2 a disk)
  /\ snd (AddTicker.main json_dumps yf now2 a
            (snd (AddTicker.main json_dumps yf now1 a disk)))
     = snd (AddTicker.main json_dumps yf now2 a disk).
Proof.
  intros Hpk.
  assert (H : forall info,
    fst (upsert_price_history yf
           (upsert_ticker_info json_dumps now2
              (fst (upsert_price_history yf
                      (upsert_ticker_info json_dumps now1 disk (arg_ticker a) info)
                      (arg_ticker a) (arg_period a)))
              (arg_ticker a) info)
           (arg_ticker a) (arg_period a))
    = fst (upsert_price_history yf
             (upsert_ticker_info json_dumps now2 disk (arg_ticker a) info)
             (arg_ticker a) (arg_period a))).
  { intros info. rewrite !upsert_price_history_unfold. simpl. f_equal.
    - apply (insert_twice_same_key Info.ticker String.eqb string_eqb_iff);
        [apply info_overwrites | apply info_overwrites | reflexivity].
    - unfold executemany_prices.
      apply (executemany_idempotent Price.key price_key_eqb price_key_eqb_eq);
        [apply price_overwrites_all | exact Hpk]. }
  destruct (yf_info yf (arg_ticker a)) as [| kv info] eqn:E.
  - unfold FetchIcolcap.main, AddTicker.main, with_connection,
      FetchIcolcap.fetch_info, AddTicker.fetch_ticker_info, create_tables.
    rewrite E. simpl. rewrite ?E. split; reflexivity.
  - assert (Hne : yf_info yf (arg_ticker a) <> []) by (rewrite E; discriminate).
    rewrite !(fetch_icolcap_main_ok _ _ _ _ _ Hne).
    rewrite !(add_ticker_main_ok _ _ _ _ _ Hne).
    simpl snd. split; apply H.
Qed.

Lemma main_rerun_leaves_second_run_witness :
  snd (FetchIcolcap.main sample_dumps sample_provider "2024-01-05 10:00:01"
         {| arg_ticker := "XYZ"; arg_db := "stock_data.db"; arg_period := "max" |}
         (snd (FetchIcolcap.main sample_dumps sample_provider "2024-01-05 10:00:00"
                 {| arg_ticker := "XYZ"; arg_db := "stock_data.db"; arg_period := "max" |}
                 xyz_store)))
  = snd (FetchIcolcap.main sample_dumps sample_provider "2024-01-05 10:00:01"
           {| arg_ticker := "XYZ"; arg_db := "stock_data.db"; arg_period := "max" |}
           xyz_store).
Proof.
  apply (main_rerun_leaves_second_run sample_dumps sample_provider
           "2024-01-05 10:00:00" "2024-01-05 10:00:01"
           {| arg_ticker := "XYZ"; arg_db := "stock_data.db"; arg_period := "max" |}
           xyz_store).
  unfold pk_prices. simpl.
  repeat (constructor; [simpl; intuition discriminate |]). constructor.
Defined.
